(** * Data-Stream-Anomaly-Detection: the scorer, the stream generator and the
    driver loop of [main.py], embedded in Rocq.

    Numbers.  A Python float (and a numpy float64) is a binary64 value, Rocq's
    primitive [float]: every operation rounds as the machine does, NaN and
    the infinities included.  A Python int is an integer of any size; turning
    it into a float raises [OverflowError] when it is too large.

    Errors.  Python exceptions are modelled by a small error monad; the
    [try ... except Exception] blocks of the source become [try_except]. *)

From Stdlib Require Import ZArith QArith Qabs Lia String List Floats Bool.
Import ListNotations.

Set Warnings "-inexact-float".

(** ** Python values, exceptions and the error monad *)

Module Py.

Inductive number : Type :=
| Int (z : Z)
| Float (x : float).

(** What an argument of the scorer may be: a number, or something that is
    not a number (a string, [None]). *)
Inductive pyobj : Type :=
| PyNum (n : number)
| PyStr (s : string)
| PyNone.

Inductive exn : Type :=
| ValueError
| TypeError
| ZeroDivisionError
| OverflowError
| StopIteration.

Inductive result (A : Type) : Type :=
| Return (a : A)
| Raise (e : exn).
Arguments Return {A} a.
Arguments Raise {A} e.

Definition bind {A B} (m : result A) (k : A -> result B) : result B :=
  match m with
  | Return a => k a
  | Raise e => Raise e
  end.

(** [try: m except Exception: return d] *)
Definition try_except {A} (m : result A) (handler : exn -> A) : A :=
  match m with
  | Return a => a
  | Raise e => handler e
  end.

(** The int [0] that the fallbacks return. *)
Definition zero : pyobj := PyNum (Int 0).
Definition num (x : float) : pyobj := PyNum (Float x).

(** *** The exact value of a number

    A finite float is [+/- m * 2^e]; comparisons between numbers, ints and
    floats alike, compare these values, and anything compared with NaN is
    false. *)

Inductive xval : Type :=
| XNaN
| XInf (negative : bool)
| XFin (q : Q).

Definition dyadic (negative : bool) (m : positive) (e : Z) : Q :=
  let n := if negative then Zneg m else Zpos m in
  match e with
  | Z0 => inject_Z n
  | Zpos p => inject_Z (n * Z.pow_pos 2 p)
  | Zneg p => Qmake n (Pos.pow 2 p)
  end.

Definition float_value (x : float) : xval :=
  match Prim2SF x with
  | S754_zero _ => XFin 0
  | S754_infinity s => XInf s
  | S754_nan => XNaN
  | S754_finite s m e => XFin (dyadic s m e)
  end.

Definition value (n : number) : xval :=
  match n with
  | Int z => XFin (inject_Z z)
  | Float x => float_value x
  end.

Definition xcompare (a b : xval) : option comparison :=
  match a, b with
  | XNaN, _ | _, XNaN => None
  | XInf s1, XInf s2 =>
      Some (match s1, s2 with
            | true, false => Lt
            | false, true => Gt
            | _, _ => Eq
            end)
  | XInf s, XFin _ => Some (if s then Lt else Gt)
  | XFin _, XInf s => Some (if s then Gt else Lt)
  | XFin p, XFin q => Some (Qcompare p q)
  end.

(** [a > b], [a < b], [a <= b] *)
Definition gt (a b : number) : bool :=
  match xcompare (value a) (value b) with
  | Some Gt => true
  | _ => false
  end.

Definition lt (a b : number) : bool := gt b a.

Definition le (a b : number) : bool :=
  match xcompare (value a) (value b) with
  | Some (Lt | Eq) => true
  | _ => false
  end.

Definition is_zero (a : number) : bool :=
  match xcompare (value a) (XFin 0) with
  | Some Eq => true
  | _ => false
  end.

(** *** Arithmetic *)

(** [float(z)]: the nearest double, ties to even; too large an int raises. *)
Definition float_of_int (z : Z) : result float :=
  match binary_normalize prec emax z 0 false with
  | S754_infinity _ => Raise OverflowError
  | r => Return (SF2Prim r)
  end.

Definition to_float (a : number) : result float :=
  match a with
  | Int z => float_of_int z
  | Float x => Return x
  end.

Definition int_as_spec_float (z : Z) : spec_float :=
  match z with
  | Z0 => S754_zero false
  | Zpos m => S754_finite false m 0
  | Zneg m => S754_finite true m 0
  end.

(** [x / y] on two ints: the double nearest to the exact quotient; a
    quotient too large for a double raises. *)
Definition int_truediv (x y : Z) : result number :=
  if (y =? 0)%Z then Raise ZeroDivisionError
  else
    match SFdiv prec emax (int_as_spec_float x) (int_as_spec_float y) with
    | S754_infinity _ => Raise OverflowError
    | r => Return (Float (SF2Prim r))
    end.

(** [a - b]: exact on two ints; otherwise both become floats. *)
Definition sub (a b : number) : result number :=
  match a, b with
  | Int x, Int y => Return (Int (x - y))
  | _, _ =>
      bind (to_float a) (fun x =>
      bind (to_float b) (fun y => Return (Float (x - y)%float)))
  end.

(** [a / b]: dividing by zero raises.  (A numpy float64 divided by zero
    warns instead; [z_score] divides by what it has found positive.) *)
Definition truediv (a b : number) : result number :=
  match a, b with
  | Int x, Int y => int_truediv x y
  | _, _ =>
      bind (to_float a) (fun x =>
      bind (to_float b) (fun y =>
        if is_zero (Float y) then Raise ZeroDivisionError
        else Return (Float (x / y)%float)))
  end.

Definition absolute (a : number) : number :=
  match a with
  | Int z => Int (Z.abs z)
  | Float x => Float (abs x)
  end.

(** *** Operators on objects: a non-number raises [TypeError] *)

Definition as_number (o : pyobj) : result number :=
  match o with
  | PyNum n => Return n
  | _ => Raise TypeError
  end.

Definition py_sub (a b : pyobj) : result pyobj :=
  bind (as_number a) (fun x =>
  bind (as_number b) (fun y =>
  bind (sub x y) (fun r => Return (PyNum r)))).

Definition py_truediv (a b : pyobj) : result pyobj :=
  bind (as_number a) (fun x =>
  bind (as_number b) (fun y =>
  bind (truediv x y) (fun r => Return (PyNum r)))).

Definition py_gt (a b : pyobj) : result bool :=
  bind (as_number a) (fun x =>
  bind (as_number b) (fun y => Return (gt x y))).

Definition py_abs (a : pyobj) : result pyobj :=
  bind (as_number a) (fun x => Return (PyNum (absolute x))).

(** *** Slicing: [l[start:]] on a list

    A negative [start] counts from the end; what falls outside the list is
    clamped to it, so a slice never raises. *)
Definition slice_from {A} (start : Z) (l : list A) : list A :=
  let len := Z.of_nat (length l) in
  let start' :=
    if (start <? 0)%Z then Z.max (start + len) 0 else Z.min start len in
  skipn (Z.to_nat start') l.

End Py.

Import Py.

Notation "x <- m ;; k" := (bind m (fun x => k))
  (at level 61, m at next level, right associativity).

(** ** The two numpy reductions the scorer calls

    [np.mean] and [np.std] on a Python list whose elements are floats (the
    values of the stream are) or not numbers at all (a string, [None]).  An
    element that is not a number makes the reduction raise [TypeError]; an
    empty list gives NaN (numpy warns, it does not raise).  A list that holds
    Python ints is outside this model: numpy builds an integer, a float or
    an object array from it, depending on the sizes of the ints.

    numpy adds a float64 array up pairwise: fewer than 8 elements one after
    the other; up to 128 elements in 8 interleaved partial sums that are
    combined as a tree, the remainder added one by one; more than 128 by
    splitting the array in two.  The reduction starts from [0.0] (releases
    that start from [-0.0] differ in the sign of a zero sum only). *)

Module Np.

Inductive item : Type :=
| Number (x : float)
| Text (s : string)
| Nothing.

Definition is_number (o : item) : bool :=
  match o with Number _ => true | _ => false end.

Fixpoint as_floats (l : list item) : result (list float) :=
  match l with
  | [] => Return []
  | Number x :: l' =>
      xs <- as_floats l' ;;
      Return (x :: xs)
  | _ :: _ => Raise TypeError
  end.

Definition add_lanes (r chunk : list float) : list float :=
  map (fun p => (fst p + snd p)%float) (combine r chunk).

Fixpoint unrolled (chunks : nat) (r rest : list float)
    : list float * list float :=
  match chunks with
  | O => (r, rest)
  | S k => unrolled k (add_lanes r (firstn 8 rest)) (skipn 8 rest)
  end.

Definition lane (r : list float) (i : nat) : float := nth i r 0%float.

(** 8 to 128 elements. *)
Definition sum_block (xs : list float) : float :=
  let (r, rest) :=
    unrolled (length xs / 8 - 1) (firstn 8 xs) (skipn 8 xs) in
  let res :=
    (((lane r 0 + lane r 1) + (lane r 2 + lane r 3))
     + ((lane r 4 + lane r 5) + (lane r 6 + lane r 7)))%float in
  fold_left PrimFloat.add rest res.

(** [fuel] bounds the depth of the splitting; the length of the list is
    always enough. *)
Fixpoint pairwise_sum_rec (fuel : nat) (xs : list float) : float :=
  let n := length xs in
  if (n <? 8)%nat then fold_left PrimFloat.add xs 0%float
  else if (n <=? 128)%nat then sum_block xs
  else
    match fuel with
    | O => sum_block xs
    | S fuel' =>
        let n2 := (n / 2 - (n / 2) mod 8)%nat in
        (pairwise_sum_rec fuel' (firstn n2 xs)
         + pairwise_sum_rec fuel' (skipn n2 xs))%float
    end.

Definition pairwise_sum (xs : list float) : float :=
  pairwise_sum_rec (length xs) xs.

Definition fsum (xs : list float) : float :=
  (0 + pairwise_sum xs)%float.

Definition count (xs : list float) : float :=
  of_uint63 (Uint63.of_Z (Z.of_nat (length xs))).

Definition fmean (xs : list float) : float :=
  (fsum xs / count xs)%float.

(** The squared deviations from the mean are averaged over N. *)
Definition fstd (xs : list float) : float :=
  let arrmean := fmean xs in
  let x := map (fun a => (a - arrmean)%float) xs in
  let x := map (fun d => (d * d)%float) x in
  sqrt (fsum x / count xs)%float.

Definition mean (l : list item) : result pyobj :=
  xs <- as_floats l ;;
  Return (num (fmean xs)).

Definition std (l : list item) : result pyobj :=
  xs <- as_floats l ;;
  Return (num (fstd xs)).

End Np.

Import Np.

(** ** The scorer ([main.py], lines 44-94) *)

Definition moving_average (data : list item) (window_size : Z) : pyobj :=
  try_except (Np.mean (slice_from (- window_size) data)) (fun _ => zero).

Definition standard_deviation (data : list item) (window_size : Z) : pyobj :=
  try_except (Np.std (slice_from (- window_size) data)) (fun _ => zero).

Definition z_score (data_point mean std_dev : pyobj) : pyobj :=
  try_except
    (c <- py_gt std_dev zero ;;
     if c then (d <- py_sub data_point mean ;; py_truediv d std_dev)
     else Return zero)
    (fun _ => zero).

(** [abs(z) > z_threshold], the test of [update] (line 236). *)
Definition exceeds (z : pyobj) (z_threshold : float) : result bool :=
  a <- py_abs z ;;
  py_gt a (num z_threshold).

(** ** What the specification calls the statistics of a window

    Exact, on rationals: the value a finite float stands for is a rational,
    and the mean and the variance of rationals need no rounding. *)

Module Stat.

Definition last_n {A} (n : nat) (l : list A) : list A :=
  rev (firstn n (rev l)).

(** The rational a finite float stands for (0 for NaN and the infinities,
    which stand for none). *)
Definition rational (x : float) : Q :=
  match float_value x with
  | XFin q => q
  | _ => 0
  end.

Definition sum (xs : list Q) : Q := fold_right Qplus 0 xs.

Definition size (xs : list Q) : Q := inject_Z (Z.of_nat (length xs)).

Definition arithmetic_mean (xs : list Q) : Q := sum xs / size xs.

Definition squared_deviations (xs : list Q) : Q :=
  let m := arithmetic_mean xs in
  sum (map (fun x => (x - m) * (x - m)) xs).

(** Population variance: the squared deviations from the mean are averaged
    over N.  The population standard deviation is its square root. *)
Definition population_variance (xs : list Q) : Q :=
  squared_deviations xs / size xs.

(** The sample variant, dividing by N - 1, for comparison. *)
Definition sample_variance (xs : list Q) : Q :=
  squared_deviations xs / (size xs - 1).

(** [|z| > t] and [|a| <= |b|] on exact values: NaN is in no order with
    anything; the infinities lie beyond every rational. *)
Definition abs_above (z t : xval) : Prop :=
  match z, t with
  | XNaN, _ | _, XNaN => False
  | _, XInf negative => negative = true
  | XInf _, XFin _ => True
  | XFin q, XFin t' => t' < Qabs q
  end.


End Stat.

(** ** The stream generator ([main.py], lines 8-41)

    [simulate_data_stream] is a generator function: calling it builds a
    generator object and runs none of its body; the body runs, up to the next
    [yield], each time [next] is called on the object.

    What the body asks of the platform is an oracle: [clock k] is what the
    k-th call of [time.time()] returns, [uniform k] the k-th draw of
    [random.uniform(-1, 1)], [np_sin] is [np.sin] on a float, and
    [time_sleep x] tells whether [time.sleep(x)] returns or raises (it raises
    on NaN and on an interval too long for the platform's timer). *)

Record oracle : Type := Oracle {
  clock : nat -> float;
  uniform : nat -> float;
  np_sin : float -> float;
  time_sleep : number -> result unit
}.

Record world : Type := World { reads : nat; draws : nat }.

Inductive generator : Type :=
| Created (duration interval : number)
| Suspended (duration interval : number) (start_time : float)
| Finished.

Section Stream.

Variable os : oracle.

Definition time_time (w : world) : float * world :=
  (clock os (reads w), World (S (reads w)) (draws w)).

Definition random_uniform (w : world) : float * world :=
  (uniform os (draws w), World (reads w) (S (draws w))).

Definition simulate_data_stream (duration interval : number)
    : result generator :=
  Return (Created duration interval).

(** From the loop test to the next [yield] or to the end of the body. *)
Definition loop (duration interval : number) (start_time : float) (w : world)
  : result float * generator * world :=
  let (now, w1) := time_time w in
  if lt (Float (now - start_time)) duration then
    let (now', w2) := time_time w1 in
    let current_time := (now' - start_time)%float in
    let regular_pattern := (10 * np_sin os (0.2 * current_time))%float in
    let seasonal_variation := (5 * np_sin os (0.05 * current_time))%float in
    let (noise, w3) := random_uniform w2 in
    let data_point :=
      (regular_pattern + seasonal_variation + noise)%float in
    (Return data_point, Suspended duration interval start_time, w3)
  else (Raise StopIteration, Finished, w1).

Definition next (g : generator) (w : world)
  : result float * generator * world :=
  match g with
  | Created duration interval =>
      if le duration (Int 0) || le interval (Int 0)
      then (Raise ValueError, Finished, w)
      else
        let (start_time, w1) := time_time w in
        loop duration interval start_time w1
  | Suspended duration interval start_time =>
      (* resumed after the yield: time.sleep(interval), then the test *)
      match time_sleep os interval with
      | Return _ => loop duration interval start_time w
      | Raise e => (Raise e, Finished, w)
      end
  | Finished => (Raise StopIteration, Finished, w)
  end.

(** The generator together with the world it runs in, as the driver sees
    it: something [next] can be called on. *)
Definition generator_next (gw : generator * world)
  : result float * (generator * world) :=
  let '(r, g, w) := next (fst gw) (snd gw) in (r, (g, w)).

(** [list(generator)] ([test_anomaly_detection.py], line 13): [next] is
    called until it raises; [StopIteration] ends the list, any other
    exception propagates.  [fuel] bounds the number of calls, [None] means
    the bound was reached first. *)
Fixpoint py_list (fuel : nat) (g : generator) (w : world)
    : option (result (list float)) :=
  match fuel with
  | O => None
  | S fuel' =>
      match next g w with
      | (Return v, g', w') =>
          match py_list fuel' g' w' with
          | Some (Return vs) => Some (Return (v :: vs))
          | other => other
          end
      | (Raise StopIteration, _, _) => Some (Return [])
      | (Raise e, _, _) => Some (Raise e)
      end
  end.

End Stream.

(** [iter(l)] on a list of floats, the simplest data stream. *)
Definition list_next (l : list float) : result float * list float :=
  match l with
  | [] => (Raise StopIteration, [])
  | x :: l' => (Return x, l')
  end.

(** ** The driver ([main.py], lines 97-302)

    Of the window only what the scorer decides is kept: the two tables (rows
    as they are appended), the anomaly points of the scatter plot, the two
    lists behind the curve and whether the timer still runs.  Console output
    and widget styling are left out.  The data stream is any iterator over
    floats, used through [next] alone; the threshold is a float (the ints 2
    and 3 of the source are the floats 2.0 and 3.0 in every comparison). *)

Record row : Type := Row {
  row_time : nat;
  row_value : float;
  row_z_score : option pyobj;     (* [None] is shown as N/A *)
  row_is_anomaly : bool
}.

Record anomaly : Type := Anomaly {
  anomaly_time : nat;
  anomaly_value : float;
  anomaly_z_score : pyobj
}.

Section Driver.

Variable stream : Type.
Variable stream_next : stream -> result float * stream.

Record gui : Type := Gui {
  data_stream : stream;
  data_points : list float;
  time_points : list nat;
  anomaly_points : list anomaly;
  table : list row;
  anomaly_table : list anomaly;
  timer_active : bool
}.

Definition add_row_to_table (s : gui) (r : row) : gui :=
  Gui (data_stream s) (data_points s) (time_points s) (anomaly_points s)
      (table s ++ [r]) (anomaly_table s) (timer_active s).

Definition add_row_to_anomaly_table (s : gui) (a : anomaly) : gui :=
  Gui (data_stream s) (data_points s) (time_points s) (anomaly_points s)
      (table s) (anomaly_table s ++ [a]) (timer_active s).

Definition append_anomaly_point (s : gui) (a : anomaly) : gui :=
  Gui (data_stream s) (data_points s) (time_points s)
      (anomaly_points s ++ [a])
      (table s) (anomaly_table s) (timer_active s).

Definition append_point (s : gui) (st : stream) (frame : nat)
    (data_point : float) : gui :=
  Gui st (data_points s ++ [data_point]) (time_points s ++ [frame])
      (anomaly_points s) (table s) (anomaly_table s) (timer_active s).

Definition timer_stop (s : gui) (st : stream) : gui :=
  Gui st (data_points s) (time_points s) (anomaly_points s)
      (table s) (anomaly_table s) false.

Definition set_stream (s : gui) (st : stream) : gui :=
  Gui st (data_points s) (time_points s) (anomaly_points s)
      (table s) (anomaly_table s) (timer_active s).

(** The body of the [if len(data_points) > window_size] branch, inside its
    [try]. *)
Definition score (window_size : Z) (z_threshold : float) (s : gui)
    (frame : nat) (data_point : float) : result gui :=
  let history := map Number (data_points s) in
  let mean := moving_average history window_size in
  let std_dev := standard_deviation history window_size in
  let z := z_score (num data_point) mean std_dev in
  c <- exceeds z z_threshold ;;
  if c then
    let a := Anomaly frame data_point z in
    let s1 := append_anomaly_point s a in
    let s2 := add_row_to_anomaly_table s1 a in
    Return (add_row_to_table s2 (Row frame data_point (Some z) true))
  else
    Return (add_row_to_table s (Row frame data_point (Some z) false)).

(** One firing of the timer. *)
Definition update (window_size : Z) (z_threshold : float) (s : gui) : gui :=
  let (r, st) := stream_next (data_stream s) in
  match r with
  | Raise StopIteration => timer_stop s st
  | Raise _ => set_stream s st
  | Return data_point =>
      let frame := length (data_points s) in
      let s1 := append_point s st frame data_point in
      if (Z.of_nat (length (data_points s1)) >? window_size)%Z then
        try_except (score window_size z_threshold s1 frame data_point)
                   (fun _ => s1)
      else
        add_row_to_table s1 (Row frame data_point None false)
  end.

(** The timer fires while it is active; [ticks] bounds the firings before
    the window is closed. *)
Fixpoint run (window_size : Z) (z_threshold : float) (ticks : nat) (s : gui)
    : gui :=
  match ticks with
  | O => s
  | S n =>
      if timer_active s
      then run window_size z_threshold n (update window_size z_threshold s)
      else s
  end.

Definition detect_anomalies_with_visualization (st : stream)
    (window_size : Z) (z_threshold : float) (ticks : nat) : result gui :=
  if (window_size <=? 0)%Z || le (Float z_threshold) (Int 0)
  then Raise ValueError
  else
    Return (run window_size z_threshold ticks (Gui st [] [] [] [] [] true)).

End Driver.

Arguments data_stream {stream} g.
Arguments data_points {stream} g.
Arguments time_points {stream} g.
Arguments anomaly_points {stream} g.
Arguments table {stream} g.
Arguments anomaly_table {stream} g.
Arguments timer_active {stream} g.
Arguments update {stream} stream_next window_size z_threshold s.
Arguments score {stream} window_size z_threshold s frame data_point.
Arguments run {stream} stream_next window_size z_threshold ticks s.
Arguments detect_anomalies_with_visualization {stream} stream_next st
  window_size z_threshold ticks.

(** The click handler of the scatter plot ([main.py], lines 271-289).  A
    clicked point carries the data of its anomaly, or nothing; for each point
    with data every row of the anomaly table whose time cell equals the
    point's time is selected, in row order.  The result lists the calls of
    [selectRow]. *)
Fixpoint select_rows (rows : list anomaly) (row : nat) (time_value : nat)
    : list nat :=
  match rows with
  | [] => []
  | a :: rest =>
      (if Nat.eqb (anomaly_time a) time_value then [row] else [])
      ++ select_rows rest (S row) time_value
  end.

Definition on_click (anomaly_table_widget : list anomaly)
    (points : list (option anomaly)) : list nat :=
  flat_map
    (fun point =>
       match point with
       | Some point_data =>
           select_rows anomaly_table_widget 0 (anomaly_time point_data)
       | None => []
       end)
    points.

(** What a row of the main table contributes to the anomaly table: itself,
    when it is flagged. *)
Definition anomaly_of_row (r : row) : list anomaly :=
  match row_z_score r with
  | Some z =>
      if row_is_anomaly r then [Anomaly (row_time r) (row_value r) z] else []
  | None => []
  end.

(** The window as [detect_anomalies_with_visualization] first shows it. *)
Definition initial_gui {stream : Type} (st : stream) : gui stream :=
  Gui stream st [] [] [] [] [] true.

(** The state of the window after two collected points, with one more to
    come from the stream. *)
Definition sample_gui : gui (list float) :=
  Gui (list float) [9%float] [1%float; 2%float] [0%nat; 1%nat] []
      [Row 0 1%float None false; Row 1 2%float None false] [] true.

(** The same window one tick earlier, still collecting. *)
Definition collecting_gui : gui (list float) :=
  Gui (list float) [2%float; 9%float] [1%float] [0%nat] []
      [Row 0 1%float None false] [] true.

(** A platform on which only [time.sleep(1)] takes time: the readings of
    the clock within one pass through the generator's loop agree, and each
    pass is one second after the previous one.  The noise and the sine are
    constant, the sleep returns. *)
Definition one_second_clock (k : nat) : float :=
  of_uint63 (Uint63.of_Z (Z.of_nat ((k - 1) / 2))).

Definition one_second_platform : oracle :=
  Oracle one_second_clock (fun _ => 0%float) (fun _ => 0%float)
         (fun _ => Return tt).

(** The value the generator yields when the clock reads [now] and the draw
    is [noise]. *)
Definition data_point_at (os : oracle) (start_time now noise : float)
    : float :=
  let current_time := (now - start_time)%float in
  (10 * np_sin os (0.2 * current_time)
   + 5 * np_sin os (0.05 * current_time) + noise)%float.

(** A window whose next point lies below the mean of its window. *)
Definition falling_gui : gui (list float) :=
  Gui (list float) [2%float] [1%float; 9%float] [0%nat; 1%nat] []
      [Row 0 1%float None false; Row 1 9%float None false] [] true.

(** * Properties *)

(** ** Slices *)

Lemma last_n_skipn {A} (n : nat) (l : list A) :
  Stat.last_n n l = skipn (length l - n) l.
Proof.
  unfold Stat.last_n.
  rewrite firstn_rev, rev_involutive. reflexivity.
Qed.

Lemma slice_from_trailing {A} (w : Z) (l : list A) :
  (1 <= w <= Z.of_nat (length l))%Z ->
  slice_from (- w) l = Stat.last_n (Z.to_nat w) l.
Proof.
  intros Hw. rewrite last_n_skipn. unfold slice_from.
  destruct (Z.ltb_spec (- w) 0) as [_ | Hge]; [| lia].
  f_equal. lia.
Qed.

Lemma slice_from_whole {A} (w : Z) (l : list A) :
  w = 0%Z \/ (Z.of_nat (length l) < w)%Z ->
  slice_from (- w) l = l.
Proof.
  intros Hw. unfold slice_from.
  destruct (Z.ltb_spec (- w) 0) as [Hlt | Hge].
  - replace (Z.to_nat (Z.max (- w + Z.of_nat (length l)) 0)) with O by lia.
    reflexivity.
  - replace (Z.to_nat (Z.min (- w) (Z.of_nat (length l)))) with O by lia.
    reflexivity.
Qed.

Lemma slice_from_map {A B} (f : A -> B) (start : Z) (l : list A) :
  slice_from start (map f l) = map f (slice_from start l).
Proof.
  unfold slice_from. rewrite length_map, skipn_map. reflexivity.
Qed.

Lemma trailing_snoc {A} (n : nat) (l : list A) (x : A) :
  (1 <= n <= length l + 1)%nat ->
  Stat.last_n n (l ++ [x]) = Stat.last_n (n - 1) l ++ [x].
Proof.
  intros Hn. rewrite !last_n_skipn, length_app, skipn_app. simpl.
  replace (length l + 1 - n)%nat with (length l - (n - 1))%nat by lia.
  replace (length l - (n - 1) - length l)%nat with O by lia.
  reflexivity.
Qed.

Lemma last_n_length {A} (n : nat) (l : list A) :
  (n <= length l)%nat -> length (Stat.last_n n l) = n.
Proof.
  intros Hn. rewrite last_n_skipn, length_skipn. lia.
Qed.

Lemma last_n_map {A B} (f : A -> B) (n : nat) (l : list A) :
  Stat.last_n n (map f l) = map f (Stat.last_n n l).
Proof.
  rewrite !last_n_skipn, length_map, skipn_map. reflexivity.
Qed.

Lemma trailing_nonempty {A} (w : Z) (l : list A) :
  (1 <= w <= Z.of_nat (length l))%Z ->
  Stat.last_n (Z.to_nat w) l <> [].
Proof.
  intros Hw Hnil.
  apply (f_equal (@length A)) in Hnil.
  rewrite last_n_length in Hnil by lia. simpl in Hnil. lia.
Qed.

(** ** The numpy reductions on a list of floats *)

Lemma as_floats_numbers (xs : list float) :
  Np.as_floats (map Number xs) = Return xs.
Proof.
  induction xs as [| x xs IH]; simpl; [reflexivity |].
  rewrite IH. reflexivity.
Qed.

Lemma moving_average_numbers (xs : list float) (w : Z) :
  moving_average (map Number xs) w = num (Np.fmean (slice_from (- w) xs)).
Proof.
  unfold moving_average, Np.mean.
  rewrite slice_from_map, as_floats_numbers. reflexivity.
Qed.

Lemma standard_deviation_numbers (xs : list float) (w : Z) :
  standard_deviation (map Number xs) w
  = num (Np.fstd (slice_from (- w) xs)).
Proof.
  unfold standard_deviation, Np.std.
  rewrite slice_from_map, as_floats_numbers. reflexivity.
Qed.

Lemma as_floats_malformed (l : list item) :
  forallb Np.is_number l = false ->
  Np.as_floats l = Raise TypeError.
Proof.
  induction l as [| o l IH]; simpl; [discriminate |].
  destruct o as [x | s |]; simpl; try reflexivity.
  intros H. rewrite IH by assumption. reflexivity.
Qed.

(** ** Exact values *)

Lemma dyadic_abs (s : bool) (m : positive) (e : Z) :
  dyadic false m e = Qabs (dyadic s m e).
Proof.
  unfold dyadic. destruct e as [| p | p]; destruct s; try reflexivity;
    rewrite <- Pos2Z.inj_pow_pos; reflexivity.
Qed.

Lemma float_value_abs (x : float) :
  float_value (abs x)
  = match float_value x with
    | XNaN => XNaN
    | XInf _ => XInf false
    | XFin q => XFin (Qabs q)
    end.
Proof.
  unfold float_value. rewrite abs_spec.
  destruct (Prim2SF x) as [s | s | | s m e]; simpl; try reflexivity.
  rewrite (dyadic_abs s). reflexivity.
Qed.

Lemma value_absolute (n : number) :
  value (absolute n)
  = match value n with
    | XNaN => XNaN
    | XInf _ => XInf false
    | XFin q => XFin (Qabs q)
    end.
Proof.
  destruct n as [z | x]; [reflexivity | apply float_value_abs].
Qed.

Lemma gt_absolute_iff (z : number) (t : float) :
  gt (absolute z) (Float t) = true
  <-> Stat.abs_above (value z) (float_value t).
Proof.
  unfold gt. rewrite value_absolute. simpl.
  destruct (value z) as [| s | q]; destruct (float_value t) as [| s' | q'];
    simpl;
    try (split; [discriminate | contradiction]);
    try (destruct s'; split; intros; try reflexivity; discriminate);
    try (split; reflexivity).
  rewrite Qgt_alt. destruct (Qabs q ?= q'); split;
    try reflexivity; discriminate.
Qed.

(** ** The z-score *)

Lemma z_score_is_number (data_point mean std_dev : pyobj) :
  exists z, z_score data_point mean std_dev = PyNum z.
Proof.
  unfold z_score, py_gt, py_sub, py_truediv, zero.
  destruct (as_number std_dev) as [s | e]; simpl; eauto.
  destruct (gt s (Int 0)); simpl; eauto.
  destruct (as_number data_point) as [x | e]; simpl; eauto.
  destruct (as_number mean) as [m | e]; simpl; eauto.
  destruct (sub x m) as [d | e]; simpl; eauto.
  destruct (truediv d s) as [r | e]; simpl; eauto.
Qed.

Lemma exceeds_number (z : number) (z_threshold : float) :
  exceeds (PyNum z) z_threshold
  = Return (gt (absolute z) (Float z_threshold)).
Proof. reflexivity. Qed.

Lemma gt_zero_not_zero (c : float) :
  gt (Float c) (Int 0) = true -> is_zero (Float c) = false.
Proof.
  unfold gt, is_zero. simpl.
  change (inject_Z 0) with 0%Q.
  destruct (xcompare (float_value c) (XFin 0)) as [[| |] |];
    try discriminate; reflexivity.
Qed.

Lemma z_score_floats (a b c : float) :
  z_score (num a) (num b) (num c)
  = if gt (Float c) (Int 0) then num ((a - b) / c) else zero.
Proof.
  unfold z_score, py_gt, py_sub, py_truediv. simpl.
  destruct (gt (Float c) (Int 0)) eqn:Hc; simpl; [| reflexivity].
  rewrite (gt_zero_not_zero c Hc). reflexivity.
Qed.

Lemma gt_ints (a b : Z) : gt (Int a) (Int b) = (b <? a)%Z.
Proof.
  unfold gt. simpl. unfold Qcompare. simpl. rewrite !Z.mul_1_r.
  destruct (Z.compare_spec a b); destruct (Z.ltb_spec b a);
    try lia; reflexivity.
Qed.

Lemma z_score_ints (x m s : Z) :
  z_score (PyNum (Int x)) (PyNum (Int m)) (PyNum (Int s))
  = if (0 <? s)%Z
    then match int_truediv (x - m) s with
         | Return q => PyNum q
         | Raise _ => zero
         end
    else zero.
Proof.
  unfold z_score, py_gt, py_sub, py_truediv, zero. simpl.
  rewrite gt_ints. destruct (0 <? s)%Z; simpl; [| reflexivity].
  destruct (int_truediv (x - m) s); reflexivity.
Qed.

Lemma z_score_not_positive (data_point mean std_dev : pyobj) :
  py_gt std_dev zero <> Return true ->
  z_score data_point mean std_dev = zero.
Proof.
  intros H. unfold z_score.
  destruct (py_gt std_dev zero) as [[|] | e]; simpl;
    [contradiction H; reflexivity | reflexivity | reflexivity].
Qed.

(** ** The scorer against its specification *)

(** C1, as stated, fails.  With [std_dev = 1 > 0] and a data point too large
    for a double the division raises and [z_score] returns 0, while
    [(data_point - mean) / std_dev] is not 0; and on floats the result is a
    rounded double: [z_score(0.3, 0.1, 0.1)] is [1.9999999999999998], which
    is not the quotient of the difference of its arguments. *)
Lemma z_score_overflow_returns_zero :
  (gt (Int 1) (Int 0) = true
   /\ z_score (PyNum (Int (10 ^ 400))) zero (PyNum (Int 1)) = zero
   /\ ~ (inject_Z (10 ^ 400 - 0) / inject_Z 1 == 0)%Q)
  /\ (gt (Float 0.1) (Int 0) = true
      /\ z_score (num 0.3) (num 0.1) (num 0.1) = num 1.9999999999999998
      /\ ~ ((Stat.rational 0.3 - Stat.rational 0.1) / Stat.rational 0.1
            == Stat.rational 1.9999999999999998)%Q).
Proof.
  split; split; try reflexivity; split; try reflexivity.
  - intros H. vm_compute in H. discriminate H.
  - intros H. vm_compute in H. discriminate H.
Qed.

(** C1, amended.  On floats [z_score] returns the double
    [(data_point - mean) / std_dev], the difference and the quotient each
    rounded, when [std_dev > 0], and the int 0 otherwise (a [std_dev] that is
    0, negative or NaN).  On ints the difference is exact and the result is
    the double nearest to the quotient, or 0 when that is too large for a
    double.  Whatever the arguments, [z_score] returns a number and it
    returns 0 unless [std_dev > 0].  [z_score(10, 5, 2)] is [2.5] and
    [z_score(x, mean, 0)] is 0 for all [x] and [mean]. *)
Theorem z_score_spec :
  (forall a b c : float,
      z_score (num a) (num b) (num c)
      = if gt (Float c) (Int 0) then num ((a - b) / c) else zero)
  /\ (forall x m s : Z,
         z_score (PyNum (Int x)) (PyNum (Int m)) (PyNum (Int s))
         = if (0 <? s)%Z
           then match int_truediv (x - m) s with
                | Return q => PyNum q
                | Raise _ => zero
                end
           else zero)
  /\ (forall data_point mean std_dev : pyobj,
         (exists z, z_score data_point mean std_dev = PyNum z)
         /\ (py_gt std_dev zero <> Return true ->
             z_score data_point mean std_dev = zero))
  /\ z_score (PyNum (Int 10)) (PyNum (Int 5)) (PyNum (Int 2)) = num 2.5
  /\ z_score (num 10) (num 5) (num 2) = num 2.5
  /\ (forall x mean : pyobj,
         z_score x mean zero = zero
         /\ z_score x mean (num 0) = zero
         /\ z_score x mean (num (-0)) = zero).
Proof.
  split; [exact z_score_floats |].
  split; [exact z_score_ints |].
  split.
  { intros data_point mean std_dev.
    split; [apply z_score_is_number | apply z_score_not_positive]. }
  split; [reflexivity |]. split; [reflexivity |].
  intros x mean. repeat split; reflexivity.
Qed.

Lemma z_score_spec_witness :
  z_score (num 1) (num 2) (PyStr "sigma") = zero.
Proof.
  apply (proj2 (proj1 (proj2 (proj2 z_score_spec)) (num 1) (num 2)
                  (PyStr "sigma"))).
  discriminate.
Defined.

(** C2, as stated, fails: the mean of the window [0.1, 0.1, 0.1] comes out
    as [0.10000000000000002], which is not the arithmetic mean of the three
    values (that is 0.1 itself); and on [1e308, 1e308] the sum overflows and
    the result is infinite. *)
Lemma moving_average_is_rounded :
  (moving_average (map Number [0.1; 0.1; 0.1]%float) 3
   = num 0.10000000000000002
   /\ Stat.arithmetic_mean (map Stat.rational [0.1; 0.1; 0.1]%float)
      == Stat.rational 0.1
   /\ ~ Stat.rational 0.10000000000000002 == Stat.rational 0.1)
  /\ moving_average (map Number [1e308; 1e308]%float) 2 = num infinity.
Proof.
  split; [| reflexivity].
  split; [reflexivity |]. split.
  - vm_compute. reflexivity.
  - intros H. vm_compute in H. discriminate H.
Qed.

(** C2, amended.  For a non-empty list of floats and
    [1 <= window_size <= len(data)], [moving_average] returns numpy's
    double-precision mean of the last [window_size] elements: their sum in
    floating point (pairwise, each addition rounded) divided by their
    number.  It is the arithmetic mean up to rounding only; on
    [1.0, 2.0, 3.0, 4.0, 5.0] with size 3 it is exactly [4.0]. *)
Theorem moving_average_spec :
  (forall (xs : list float) (w : Z),
      xs <> [] ->
      (1 <= w <= Z.of_nat (length xs))%Z ->
      moving_average (map Number xs) w
      = num (Np.fmean (Stat.last_n (Z.to_nat w) xs))
      /\ length (Stat.last_n (Z.to_nat w) xs) = Z.to_nat w)
  /\ moving_average (map Number [1; 2; 3; 4; 5]%float) 3 = num 4
  /\ Stat.arithmetic_mean
       (map Stat.rational (Stat.last_n 3 [1; 2; 3; 4; 5]%float))
     == Stat.rational 4.
Proof.
  split; [| split].
  - intros xs w Hne Hw. rewrite moving_average_numbers.
    rewrite slice_from_trailing by assumption.
    split; [reflexivity | apply last_n_length; lia].
  - reflexivity.
  - vm_compute. reflexivity.
Qed.

Lemma moving_average_spec_witness :
  moving_average (map Number [1; 2; 3; 4; 5]%float) 3
  = num (Np.fmean (Stat.last_n 3 [1; 2; 3; 4; 5]%float)).
Proof.
  apply (proj1 moving_average_spec [1; 2; 3; 4; 5]%float 3%Z).
  - discriminate.
  - simpl. lia.
Defined.

(** C3, as stated, fails: on the constant window [0.1, 0.1, 0.1] the
    population standard deviation is 0, and [standard_deviation] returns
    [1.3877787807814457e-17], which is above 0. *)
Lemma standard_deviation_is_rounded :
  standard_deviation (map Number [0.1; 0.1; 0.1]%float) 3
  = num 1.3877787807814457e-17
  /\ gt (Float 1.3877787807814457e-17) (Int 0) = true
  /\ Stat.population_variance (map Stat.rational [0.1; 0.1; 0.1]%float) == 0.
Proof.
  split; [reflexivity |]. split; [reflexivity |].
  vm_compute. reflexivity.
Qed.

(** C3, amended.  For a non-empty list of floats and
    [1 <= window_size <= len(data)], [standard_deviation] returns numpy's
    double-precision standard deviation of the last [window_size] elements:
    the square root of the floating-point mean of the squared deviations
    from the floating-point mean, the mean taken over N.  It is the
    population standard deviation up to rounding only.  On
    [1.0, 2.0, 3.0, 4.0, 5.0] with size 3 it is [0.816496580927726]: within 0.00005 of 0.8165, its
    square within 1e-15 of the population variance 2/3 and not the sample
    variance 1. *)
Theorem standard_deviation_spec :
  (forall (xs : list float) (w : Z),
      xs <> [] ->
      (1 <= w <= Z.of_nat (length xs))%Z ->
      standard_deviation (map Number xs) w
      = num (Np.fstd (Stat.last_n (Z.to_nat w) xs))
      /\ length (Stat.last_n (Z.to_nat w) xs) = Z.to_nat w)
  /\ (forall xs : list float,
         Np.fstd xs
         = sqrt (Np.fsum (map (fun x => ((x - Np.fmean xs)
                                         * (x - Np.fmean xs))%float) xs)
                 / Np.count xs))
  /\ standard_deviation (map Number [1; 2; 3; 4; 5]%float) 3
     = num 0.816496580927726
  /\ Qabs (Stat.rational 0.816496580927726 - (8165 # 10000)) < (5 # 100000)
  /\ Stat.population_variance
       (map Stat.rational (Stat.last_n 3 [1; 2; 3; 4; 5]%float)) == 2 # 3
  /\ Stat.sample_variance
       (map Stat.rational (Stat.last_n 3 [1; 2; 3; 4; 5]%float)) == 1
  /\ Qabs (Stat.rational 0.816496580927726 * Stat.rational 0.816496580927726
           - (2 # 3)) < (1 # 1000000000000000).
Proof.
  split; [| split; [| split; [| split; [| split; [| split]]]]].
  - intros xs w Hne Hw. rewrite standard_deviation_numbers.
    rewrite slice_from_trailing by assumption.
    split; [reflexivity | apply last_n_length; lia].
  - intros xs. unfold Np.fstd. rewrite map_map. reflexivity.
  - reflexivity.
  - vm_compute. reflexivity.
  - vm_compute. reflexivity.
  - vm_compute. reflexivity.
  - vm_compute. reflexivity.
Qed.

Lemma standard_deviation_spec_witness :
  standard_deviation (map Number [1; 2; 3; 4; 5]%float) 3
  = num (Np.fstd (Stat.last_n 3 [1; 2; 3; 4; 5]%float)).
Proof.
  apply (proj1 standard_deviation_spec [1; 2; 3; 4; 5]%float 3%Z).
  - discriminate.
  - simpl. lia.
Defined.

(** C10, as stated, fails: the list [["a"]] is not empty and with
    [window_size = 0] both functions return the 0 fallback. *)
Lemma degenerate_window_can_fall_back :
  [Text "a"] <> []
  /\ moving_average [Text "a"] 0 = zero
  /\ standard_deviation [Text "a"] 0 = zero.
Proof. split; [discriminate |]. split; reflexivity. Qed.

(** C10, amended.  With [window_size = 0], or [window_size] greater than
    [len(data)], the slice [data[-window_size:]] is the whole list, so both
    functions return what they return for [window_size = len(data)].  On a
    list of floats that is numpy's double-precision mean and standard
    deviation of the whole list, a float and never the int 0 of the
    fallback. *)
Theorem degenerate_window_is_whole_list :
  (forall (data : list item) (w : Z),
      w = 0%Z \/ (Z.of_nat (length data) < w)%Z ->
      slice_from (- w) data = data
      /\ moving_average data w
         = try_except (Np.mean data) (fun _ => zero)
      /\ standard_deviation data w
         = try_except (Np.std data) (fun _ => zero))
  /\ (forall (xs : list float) (w : Z),
         w = 0%Z \/ (Z.of_nat (length xs) < w)%Z ->
         moving_average (map Number xs) w = num (Np.fmean xs)
         /\ standard_deviation (map Number xs) w = num (Np.fstd xs)
         /\ moving_average (map Number xs) w <> zero
         /\ standard_deviation (map Number xs) w <> zero).
Proof.
  split.
  - intros data w Hw. unfold moving_average, standard_deviation.
    rewrite slice_from_whole by assumption. repeat split; reflexivity.
  - intros xs w Hw.
    rewrite moving_average_numbers, standard_deviation_numbers.
    rewrite slice_from_whole by assumption.
    repeat split; try reflexivity; discriminate.
Qed.

Lemma degenerate_window_is_whole_list_witness :
  moving_average (map Number [1; 2; 3]%float) 7 = num 2
  /\ standard_deviation (map Number [1; 2; 3]%float) 0
     = num 0.816496580927726.
Proof.
  split.
  - etransitivity.
    + apply (proj2 degenerate_window_is_whole_list [1; 2; 3]%float 7%Z).
      right. simpl. lia.
    + reflexivity.
  - etransitivity.
    + apply (proj2 degenerate_window_is_whole_list [1; 2; 3]%float 0%Z).
      left. reflexivity.
    + reflexivity.
Defined.

(** ** Empty and malformed windows *)

(** C6, as stated, fails: on an empty list the mean is NaN, not 0. *)
Lemma empty_window_is_nan :
  moving_average [] 3 = num nan /\ moving_average [] 3 <> zero.
Proof. split; [reflexivity | discriminate]. Qed.

(** C6, amended.  [moving_average] and [standard_deviation] always return a
    number to the caller; when the window holds something that is not a
    number the failure of the reduction is swallowed and 0 is returned; on an
    empty list the reduction does not fail and NaN is returned. *)
Theorem scorer_fallback (data : list item) (w : Z) :
  forallb Np.is_number (slice_from (- w) data) = false ->
  (moving_average data w = zero /\ standard_deviation data w = zero)
  /\ (forall data' w', exists x y,
        moving_average data' w' = PyNum x
        /\ standard_deviation data' w' = PyNum y)
  /\ (forall w', moving_average [] w' = num nan
                /\ standard_deviation [] w' = num nan).
Proof.
  intros Hbad. split; [| split].
  - unfold moving_average, standard_deviation, Np.mean, Np.std.
    rewrite as_floats_malformed by assumption. split; reflexivity.
  - intros data' w'.
    unfold moving_average, standard_deviation, Np.mean, Np.std, zero, num.
    destruct (Np.as_floats (slice_from (- w') data')); simpl; eauto.
  - intros w'. unfold moving_average, standard_deviation, slice_from.
    rewrite skipn_nil. split; reflexivity.
Qed.

Lemma scorer_fallback_witness :
  moving_average [Number 1; Text "x"; Number 2] 2 = zero
  /\ standard_deviation [Number 1; Text "x"; Number 2] 2 = zero.
Proof.
  apply (scorer_fallback [Number 1; Text "x"; Number 2] 2%Z).
  reflexivity.
Defined.

(** ** The anomaly test *)





(** ** One tick of the driver *)

Section Update.

Context {stream : Type}.
Variable stream_next : stream -> result float * stream.
Variables (window_size : Z) (z_threshold : float).
Variables (s : gui stream) (data_point : float) (st : stream).

Hypothesis Hnext : stream_next (data_stream s) = (Return data_point, st).

Let frame := length (data_points s).
Let history := map Number (data_points s ++ [data_point]).
Let z :=
  z_score (num data_point)
          (moving_average history window_size)
          (standard_deviation history window_size).
Let s' := update stream_next window_size z_threshold s.

Lemma update_data_points : data_points s' = data_points s ++ [data_point].
Proof.
  unfold s', update. rewrite Hnext. simpl.
  destruct (Z.of_nat (length (data_points s ++ [data_point])) >? window_size)%Z;
    [| reflexivity].
  unfold score. simpl.
  destruct (z_score_is_number (num data_point)
              (moving_average (map Number (data_points s ++ [data_point]))
                              window_size)
              (standard_deviation (map Number (data_points s ++ [data_point]))
                                  window_size)) as [zf Hz].
  rewrite Hz, exceeds_number. simpl.
  destruct (gt (absolute zf) (Float z_threshold)); reflexivity.
Qed.

Lemma update_collecting :
  (Z.of_nat (length (data_points s ++ [data_point])) <= window_size)%Z ->
  table s' = table s ++ [Row frame data_point None false]
  /\ anomaly_table s' = anomaly_table s
  /\ anomaly_points s' = anomaly_points s.
Proof.
  intros Hlen. unfold s', update. rewrite Hnext. simpl.
  destruct (Z.gtb_spec
              (Z.of_nat (length (data_points s ++ [data_point])))
              window_size) as [Hgt | _]; [lia |].
  repeat split; reflexivity.
Qed.

Lemma update_scored :
  (Z.of_nat (length (data_points s ++ [data_point])) > window_size)%Z ->
  exists (zf : number) (flag : bool),
    z = PyNum zf
    /\ flag = gt (absolute zf) (Float z_threshold)
    /\ exceeds z z_threshold = Return flag
    /\ table s' = table s ++ [Row frame data_point (Some z) flag]
    /\ anomaly_table s'
       = anomaly_table s
         ++ (if flag then [Anomaly frame data_point z] else [])
    /\ anomaly_points s'
       = anomaly_points s
         ++ (if flag then [Anomaly frame data_point z] else []).
Proof.
  intros Hlen. unfold s', update. rewrite Hnext. simpl.
  destruct (Z.gtb_spec
              (Z.of_nat (length (data_points s ++ [data_point])))
              window_size) as [_ | Hle]; [| lia].
  unfold score. simpl. fold history. fold z.
  destruct (z_score_is_number (num data_point)
              (moving_average history window_size)
              (standard_deviation history window_size)) as [zf Hz].
  fold z in Hz.
  exists zf, (gt (absolute zf) (Float z_threshold)).
  rewrite Hz, exceeds_number. simpl.
  destruct (gt (absolute zf) (Float z_threshold)); simpl;
    rewrite ?app_nil_r; repeat split; reflexivity.
Qed.

End Update.

(** A tick at which the stream raises fetches nothing and shows nothing. *)
Lemma update_no_data {stream : Type}
    (stream_next : stream -> result float * stream)
    (window_size : Z) (z_threshold : float)
    (s : gui stream) (e : exn) (st : stream) :
  stream_next (data_stream s) = (Raise e, st) ->
  let s' := update stream_next window_size z_threshold s in
  data_points s' = data_points s
  /\ table s' = table s
  /\ anomaly_table s' = anomaly_table s.
Proof.
  intros Hnext. unfold update. rewrite Hnext.
  destruct e; repeat split; reflexivity.
Qed.

(** C4.  At a tick where a score is computed the row is flagged exactly when
    the absolute value of the z-score is strictly above the threshold: for a
    z-score of value [q] and a threshold of value [t], exactly when
    [t < |q|]; a z-score whose absolute value equals the threshold is not
    flagged.  (An infinite z-score is above every finite threshold, a NaN
    z-score above none.)  The anomaly table receives the point exactly when
    it is flagged. *)
Theorem anomaly_flag_iff_exceeds {stream : Type}
    (stream_next : stream -> result float * stream)
    (window_size : Z) (z_threshold : float)
    (s : gui stream) (data_point : float) (st : stream) :
  stream_next (data_stream s) = (Return data_point, st) ->
  (Z.of_nat (length (data_points s ++ [data_point])) > window_size)%Z ->
  let history := map Number (data_points s ++ [data_point]) in
  let s' := update stream_next window_size z_threshold s in
  exists (z : number) (flag : bool),
    z_score (num data_point) (moving_average history window_size)
            (standard_deviation history window_size) = PyNum z
    /\ table s'
       = table s
         ++ [Row (length (data_points s)) data_point (Some (PyNum z)) flag]
    /\ (flag = true <-> Stat.abs_above (value z) (float_value z_threshold))
    /\ (forall q t : Q,
           value z = XFin q -> float_value z_threshold = XFin t ->
           (flag = true <-> t < Qabs q)
           /\ (Qabs q == t -> flag = false))
    /\ (anomaly_table s' <> anomaly_table s <-> flag = true).
Proof.
  intros Hnext Hlen history s'.
  destruct (update_scored stream_next window_size z_threshold s data_point st
              Hnext Hlen)
    as (zf & flag & Hz & Hflag & _ & Htable & Hanom & _).
  fold history in Hz, Htable, Hanom. fold s' in Htable, Hanom.
  exists zf, flag. rewrite Hz in Htable.
  assert (Hiff : flag = true
                 <-> Stat.abs_above (value zf) (float_value z_threshold))
    by (rewrite Hflag; apply gt_absolute_iff).
  split; [exact Hz |]. split; [exact Htable |].
  split; [exact Hiff |].
  split.
  - intros q t Hq Ht. rewrite Hq, Ht in Hiff. simpl in Hiff.
    split; [exact Hiff |].
    intros Heq. destruct flag; [| reflexivity].
    exfalso. apply (Qlt_irrefl t).
    rewrite <- Heq at 2. apply Hiff. reflexivity.
  - rewrite Hanom. destruct flag; split; intros H.
    + reflexivity.
    + intros Heq. apply (f_equal (@length anomaly)) in Heq.
      rewrite length_app in Heq. simpl in Heq. lia.
    + exfalso. apply H. apply app_nil_r.
    + discriminate.
Qed.

Lemma anomaly_flag_iff_exceeds_witness :
  table (update list_next 2 0.5 falling_gui)
  = table falling_gui ++ [Row 2 2 (Some (num (-1))) true].
Proof.
  destruct (anomaly_flag_iff_exceeds list_next 2 0.5%float falling_gui
              2%float [] eq_refl eq_refl)
    as (z & flag & Hz & Htable & _ & Hq & _).
  assert (Hone : z = Float (-1)).
  { vm_compute in Hz. injection Hz as <-. reflexivity. }
  subst z. rewrite Htable.
  destruct (Hq (Stat.rational (-1)) (Stat.rational 0.5) eq_refl eq_refl)
    as [Hiff _].
  rewrite (proj2 Hiff); [reflexivity |].
  vm_compute. reflexivity.
Defined.

(** C7.  At every tick that fetches a data point exactly one row is handed to
    the table; it carries a z-score, and the anomaly test is evaluated,
    exactly when the history (the new point included) is longer than
    [window_size]; otherwise the row carries no z-score, is not flagged and
    nothing reaches the anomaly table. *)
Theorem score_iff_history_exceeds_window {stream : Type}
    (stream_next : stream -> result float * stream)
    (window_size : Z) (z_threshold : float)
    (s : gui stream) (data_point : float) (st : stream) :
  stream_next (data_stream s) = (Return data_point, st) ->
  let history := map Number (data_points s ++ [data_point]) in
  let z := z_score (num data_point) (moving_average history window_size)
                   (standard_deviation history window_size) in
  let s' := update stream_next window_size z_threshold s in
  data_points s' = data_points s ++ [data_point]
  /\ exists r,
      table s' = table s ++ [r]
      /\ row_time r = length (data_points s)
      /\ row_value r = data_point
      /\ (row_z_score r <> None
          <-> (Z.of_nat (length (data_points s')) > window_size)%Z)
      /\ ((Z.of_nat (length (data_points s')) > window_size)%Z ->
          row_z_score r = Some z
          /\ exceeds z z_threshold = Return (row_is_anomaly r))
      /\ ((Z.of_nat (length (data_points s')) <= window_size)%Z ->
          row_z_score r = None
          /\ row_is_anomaly r = false
          /\ anomaly_table s' = anomaly_table s).
Proof.
  intros Hnext history z s'.
  pose proof (update_data_points stream_next window_size z_threshold s
                data_point st Hnext) as Hdata.
  fold s' in Hdata. split; [exact Hdata |]. rewrite Hdata.
  destruct (Z_gt_le_dec (Z.of_nat (length (data_points s ++ [data_point])))
                        window_size) as [Hgt | Hle].
  - destruct (update_scored stream_next window_size z_threshold s data_point
                st Hnext Hgt)
      as (zf & flag & _ & _ & Hex & Htable & _).
    fold history in Hex, Htable. fold z in Hex, Htable. fold s' in Htable.
    exists (Row (length (data_points s)) data_point (Some z) flag).
    simpl. repeat split; try assumption; try discriminate; lia.
  - destruct (update_collecting stream_next window_size z_threshold s
                data_point st Hnext Hle) as (Htable & Hanom & _).
    fold s' in Htable, Hanom.
    exists (Row (length (data_points s)) data_point None false).
    simpl. repeat split; try assumption; try congruence; lia.
Qed.

Lemma score_iff_history_exceeds_window_witness :
  exists r,
    table (update list_next 2 1 collecting_gui)
    = table collecting_gui ++ [r]
    /\ row_z_score r = None.
Proof.
  destruct (score_iff_history_exceeds_window list_next 2 1%float
              collecting_gui 2%float [9%float] eq_refl)
    as (Hdata & r & Htable & _ & _ & _ & _ & Hfill).
  exists r. split; [exact Htable |].
  apply Hfill. rewrite Hdata. simpl. lia.
Defined.

(** C9.  At a tick where a score is computed the new data point has already
    been appended when the window is taken: the window is the last
    [window_size] elements of the history, the scored value is its last
    element, and the mean and standard deviation that enter the z-score are
    those of this window. *)
Theorem scored_value_in_own_window {stream : Type}
    (stream_next : stream -> result float * stream)
    (window_size : Z) (z_threshold : float)
    (s : gui stream) (data_point : float) (st : stream) :
  stream_next (data_stream s) = (Return data_point, st) ->
  (1 <= window_size)%Z ->
  (Z.of_nat (length (data_points s ++ [data_point])) > window_size)%Z ->
  let window := slice_from (- window_size) (data_points s ++ [data_point]) in
  let mean := try_except (Np.mean (map Number window)) (fun _ => zero) in
  let std_dev := try_except (Np.std (map Number window)) (fun _ => zero) in
  let s' := update stream_next window_size z_threshold s in
  data_points s' = data_points s ++ [data_point]
  /\ window = Stat.last_n (Z.to_nat window_size)
                          (data_points s ++ [data_point])
  /\ window = Stat.last_n (Z.to_nat window_size - 1) (data_points s)
              ++ [data_point]
  /\ length window = Z.to_nat window_size
  /\ In data_point window
  /\ exists flag,
      table s'
      = table s
        ++ [Row (length (data_points s)) data_point
                (Some (z_score (num data_point) mean std_dev)) flag].
Proof.
  intros Hnext Hw Hlen window mean std_dev s'.
  assert (Hlen' : (1 <= window_size
                   <= Z.of_nat (length (data_points s ++ [data_point])))%Z)
    by lia.
  assert (Hlast : window = Stat.last_n (Z.to_nat window_size)
                             (data_points s ++ [data_point]))
    by (apply slice_from_trailing; exact Hlen').
  assert (Hsnoc : window
                  = Stat.last_n (Z.to_nat window_size - 1) (data_points s)
                    ++ [data_point]).
  { rewrite Hlast. apply trailing_snoc.
    rewrite length_app in Hlen. simpl in Hlen. lia. }
  split.
  { apply (update_data_points stream_next window_size z_threshold s
             data_point st Hnext). }
  split; [exact Hlast |]. split; [exact Hsnoc |].
  split; [rewrite Hlast; apply last_n_length; lia |].
  split; [rewrite Hsnoc; apply in_or_app; right; left; reflexivity |].
  destruct (update_scored stream_next window_size z_threshold s data_point
              st Hnext Hlen)
    as (zf & flag & _ & _ & _ & Htable & _).
  exists flag. fold s' in Htable. rewrite Htable.
  unfold moving_average, standard_deviation.
  rewrite slice_from_map. reflexivity.
Qed.

Lemma scored_value_in_own_window_witness :
  slice_from (- 2) (data_points sample_gui ++ [9%float])
  = [2%float; 9%float]
  /\ In 9%float (slice_from (- 2) (data_points sample_gui ++ [9%float])).
Proof.
  destruct (scored_value_in_own_window list_next 2 1%float sample_gui
              9%float [] eq_refl)
    as (_ & Hlast & _ & _ & Hin & _).
  - lia.
  - simpl. lia.
  - split; [etransitivity; [exact Hlast | reflexivity] | exact Hin].
Defined.

(** ** Validation of the configuration *)

Lemma next_invalid_config (os : oracle) (duration interval : number)
    (w : world) :
  le duration (Int 0) = true \/ le interval (Int 0) = true ->
  next os (Created duration interval) w = (Raise ValueError, Finished, w).
Proof.
  intros Hbad. simpl.
  destruct Hbad as [H | H]; rewrite H; [| rewrite orb_true_r]; reflexivity.
Qed.

Lemma next_finished (os : oracle) (w : world) :
  next os Finished w = (Raise StopIteration, Finished, w).
Proof. reflexivity. Qed.

Lemma detect_invalid_config {stream : Type}
    (stream_next : stream -> result float * stream) (st : stream)
    (window_size : Z) (z_threshold : float) (ticks : nat) :
  (window_size <= 0)%Z \/ le (Float z_threshold) (Int 0) = true ->
  detect_anomalies_with_visualization stream_next st window_size z_threshold
                                      ticks
  = Raise ValueError.
Proof.
  intros Hbad. unfold detect_anomalies_with_visualization.
  destruct Hbad as [H | H].
  - apply Z.leb_le in H. rewrite H. reflexivity.
  - rewrite H, orb_true_r. reflexivity.
Qed.

Lemma detect_valid_config {stream : Type}
    (stream_next : stream -> result float * stream) (st : stream)
    (window_size : Z) (z_threshold : float) (ticks : nat) (g : gui stream) :
  detect_anomalies_with_visualization stream_next st window_size z_threshold
                                      ticks
  = Return g ->
  (1 <= window_size)%Z /\ le (Float z_threshold) (Int 0) = false.
Proof.
  unfold detect_anomalies_with_visualization.
  destruct (Z.leb_spec window_size 0) as [_ | Hw]; [discriminate |].
  destruct (le (Float z_threshold) (Int 0)); [discriminate |].
  intros _. split; [lia | reflexivity].
Qed.

(** C5, at [duration = 0].  Calling [simulate_data_stream(0, 0.5)] raises
    nothing: it returns a generator.  The [ValueError] is raised by the first
    [next] on it, before any value is yielded.  Handed to the driver with a
    valid window size and threshold, the error is caught by [update] and the
    run ends with empty tables and a stopped timer. *)
Theorem simulate_data_stream_validates_on_first_next
    (os : oracle) (w : world) :
  simulate_data_stream (Int 0) (Float 0.5)
  = Return (Created (Int 0) (Float 0.5))
  /\ next os (Created (Int 0) (Float 0.5)) w
     = (Raise ValueError, Finished, w)
  /\ detect_anomalies_with_visualization
       (generator_next os) (Created (Int 0) (Float 0.5), w) 10 2 3
     = Return (Gui (generator * world) (Finished, w) [] [] [] [] [] false).
Proof.
  split; [reflexivity |].
  split; [apply next_invalid_config; left; reflexivity |].
  reflexivity.
Qed.

(** * Further properties of the driver *)

(** ** What one firing of the timer does to each part of the window *)

Lemma update_raise {stream : Type}
    (stream_next : stream -> result float * stream)
    (window_size : Z) (z_threshold : float)
    (s : gui stream) (e : exn) (st : stream) :
  stream_next (data_stream s) = (Raise e, st) ->
  update stream_next window_size z_threshold s
  = Gui stream st (data_points s) (time_points s) (anomaly_points s)
        (table s) (anomaly_table s)
        (match e with StopIteration => false | _ => timer_active s end).
Proof.
  intros Hnext. unfold update. rewrite Hnext.
  destruct e; reflexivity.
Qed.

Lemma update_return {stream : Type}
    (stream_next : stream -> result float * stream)
    (window_size : Z) (z_threshold : float)
    (s : gui stream) (data_point : float) (st : stream) :
  stream_next (data_stream s) = (Return data_point, st) ->
  exists r,
    update stream_next window_size z_threshold s
    = Gui stream st (data_points s ++ [data_point])
          (time_points s ++ [length (data_points s)])
          (anomaly_points s ++ anomaly_of_row r)
          (table s ++ [r])
          (anomaly_table s ++ anomaly_of_row r)
          (timer_active s)
    /\ row_time r = length (data_points s)
    /\ row_value r = data_point
    /\ (row_z_score r = None
        <-> (Z.of_nat (length (data_points s)) < window_size)%Z)
    /\ (row_z_score r = None -> row_is_anomaly r = false)
    /\ (forall z, row_z_score r = Some z ->
        z = z_score (num data_point)
              (moving_average (map Number (data_points s ++ [data_point]))
                              window_size)
              (standard_deviation (map Number (data_points s ++ [data_point]))
                                  window_size)
        /\ exceeds z z_threshold = Return (row_is_anomaly r)).
Proof.
  intros Hnext. unfold update. rewrite Hnext. cbn [data_points append_point].
  rewrite length_app. cbn [length].
  destruct (Z.gtb_spec (Z.of_nat (length (data_points s) + 1)) window_size)
    as [Hgt | Hle].
  - unfold score. cbn [data_points append_point].
    set (z := z_score (num data_point)
                (moving_average (map Number (data_points s ++ [data_point]))
                                window_size)
                (standard_deviation
                   (map Number (data_points s ++ [data_point])) window_size)).
    destruct (z_score_is_number (num data_point)
                (moving_average (map Number (data_points s ++ [data_point]))
                                window_size)
                (standard_deviation
                   (map Number (data_points s ++ [data_point])) window_size))
      as [zf Hz].
    fold z in Hz.
    assert (Hex : exceeds z z_threshold
                  = Return (gt (absolute zf) (Float z_threshold)))
      by (rewrite Hz; apply exceeds_number).
    rewrite Hex. cbn [bind].
    exists (Row (length (data_points s)) data_point (Some z)
                (gt (absolute zf) (Float z_threshold))).
    unfold anomaly_of_row. cbn [row_z_score row_is_anomaly row_time row_value].
    destruct (gt (absolute zf) (Float z_threshold)); cbn [try_except];
      unfold add_row_to_table, add_row_to_anomaly_table, append_anomaly_point;
      cbn; rewrite ?app_nil_r;
      (split; [reflexivity |]);
      (split; [reflexivity |]);
      (split; [reflexivity |]);
      (split; [split; [discriminate | lia] |]);
      (split; [discriminate |]);
      intros z' Hz'; injection Hz' as <-; split; [reflexivity | exact Hex
                                                  | reflexivity | exact Hex].
  - exists (Row (length (data_points s)) data_point None false).
    unfold anomaly_of_row, add_row_to_table. cbn. rewrite ?app_nil_r.
    split; [reflexivity |].
    split; [reflexivity |].
    split; [reflexivity |].
    split; [split; [lia | reflexivity] |].
    split; [reflexivity |].
    discriminate.
Qed.

Lemma run_invariant {stream : Type}
    (stream_next : stream -> result float * stream)
    (window_size : Z) (z_threshold : float) (P : gui stream -> Prop) :
  (forall s, P s -> P (update stream_next window_size z_threshold s)) ->
  forall ticks s, P s -> P (run stream_next window_size z_threshold ticks s).
Proof.
  intros Hstep ticks.
  induction ticks as [| n IH]; intros s Hs; simpl; [exact Hs |].
  destruct (timer_active s); [| exact Hs].
  apply IH, Hstep, Hs.
Qed.

(** ** Invariants of a run *)

Section Run.

Context {stream : Type}.
Variable stream_next : stream -> result float * stream.
Variables (window_size : Z) (z_threshold : float).

Lemma run_rows_inv (ticks : nat) (st : stream) :
  let g := run stream_next window_size z_threshold ticks (initial_gui st) in
  time_points g = seq 0 (length (data_points g))
  /\ map row_time (table g) = seq 0 (length (data_points g))
  /\ map row_value (table g) = data_points g
  /\ length (table g) = length (data_points g).
Proof.
  set (P := fun g : gui stream =>
              time_points g = seq 0 (length (data_points g))
              /\ map row_time (table g) = seq 0 (length (data_points g))
              /\ map row_value (table g) = data_points g).
  assert (H : P (run stream_next window_size z_threshold ticks
                     (initial_gui st))).
  { apply run_invariant; [| repeat split].
    intros s (Ht & Hr & Hv).
    destruct (stream_next (data_stream s)) as [[v | e] st'] eqn:Hnext.
    - destruct (update_return stream_next window_size z_threshold s v st'
                  Hnext) as (r & -> & Hrt & Hrv & _).
      unfold P. cbn [time_points data_points table].
      rewrite !map_app, length_app, seq_app, Ht, Hr, Hv. cbn.
      rewrite Hrt, Hrv. repeat split; reflexivity.
    - rewrite (update_raise stream_next window_size z_threshold s e st'
                 Hnext).
      unfold P. cbn [time_points data_points table]. repeat split; assumption. }
  destruct H as (Ht & Hr & Hv).
  repeat split; try assumption.
  apply (f_equal (@length float)) in Hv.
  rewrite length_map in Hv. exact Hv.
Qed.

Lemma run_fill_inv (ticks : nat) (st : stream) (i : nat) (r : row) :
  let g := run stream_next window_size z_threshold ticks (initial_gui st) in
  nth_error (table g) i = Some r ->
  (row_z_score r = None <-> (Z.of_nat i < window_size)%Z)
  /\ (row_z_score r = None -> row_is_anomaly r = false).
Proof.
  set (P := fun g : gui stream =>
              length (table g) = length (data_points g)
              /\ forall i r, nth_error (table g) i = Some r ->
                   (row_z_score r = None <-> (Z.of_nat i < window_size)%Z)
                   /\ (row_z_score r = None -> row_is_anomaly r = false)).
  assert (H : P (run stream_next window_size z_threshold ticks
                     (initial_gui st))).
  { apply run_invariant.
    - intros s (Hlen & Hrows).
      destruct (stream_next (data_stream s)) as [[v | e] st'] eqn:Hnext.
      + destruct (update_return stream_next window_size z_threshold s v st'
                    Hnext) as (r' & -> & _ & _ & Hnone & Hflag & _).
        unfold P. cbn [data_points table]. split.
        * rewrite !length_app, Hlen. reflexivity.
        * intros j r0 Hj.
          destruct (Nat.lt_ge_cases j (length (table s))) as [Hlt | Hge].
          -- rewrite nth_error_app1 in Hj by assumption. apply Hrows, Hj.
          -- rewrite nth_error_app2 in Hj by assumption.
             destruct (j - length (table s))%nat as [| k] eqn:Hk.
             ++ simpl in Hj. injection Hj as <-.
                replace j with (length (data_points s)) by lia.
                split; assumption.
             ++ simpl in Hj. destruct k; discriminate.
      + rewrite (update_raise stream_next window_size z_threshold s e st'
                   Hnext).
        unfold P. cbn [data_points table]. split; assumption.
    - split; [reflexivity |]. intros j r0 Hj. destruct j; discriminate. }
  intros g Hi. apply (proj2 H i r Hi).
Qed.

Lemma run_anomalies_inv (ticks : nat) (st : stream) :
  let g := run stream_next window_size z_threshold ticks (initial_gui st) in
  anomaly_table g = flat_map anomaly_of_row (table g)
  /\ anomaly_points g = anomaly_table g.
Proof.
  set (P := fun g : gui stream =>
              anomaly_table g = flat_map anomaly_of_row (table g)
              /\ anomaly_points g = anomaly_table g).
  assert (H : P (run stream_next window_size z_threshold ticks
                     (initial_gui st))).
  { apply run_invariant; [| split; reflexivity].
    intros s (Ha & Hp).
    destruct (stream_next (data_stream s)) as [[v | e] st'] eqn:Hnext.
    - destruct (update_return stream_next window_size z_threshold s v st'
                  Hnext) as (r & -> & _).
      unfold P. cbn [anomaly_table anomaly_points table].
      rewrite flat_map_app, Hp, Ha. cbn [flat_map]. rewrite app_nil_r.
      split; reflexivity.
    - rewrite (update_raise stream_next window_size z_threshold s e st'
                 Hnext).
      unfold P. cbn [anomaly_table anomaly_points table].
      split; assumption. }
  exact H.
Qed.

End Run.

(** X1.  However long the window runs, on whatever stream, the main table
    has exactly one row per fetched data point, in the order of arrival: row
    [i] carries time [i] and the [i]-th value of the history, and the time
    axis of the curve is [0, 1, ..., n - 1]. *)
Theorem run_rows_follow_history {stream : Type}
    (stream_next : stream -> result float * stream)
    (window_size : Z) (z_threshold : float) (ticks : nat) (st : stream) :
  let g := run stream_next window_size z_threshold ticks (initial_gui st) in
  time_points g = seq 0 (length (data_points g))
  /\ map row_time (table g) = seq 0 (length (data_points g))
  /\ map row_value (table g) = data_points g
  /\ length (table g) = length (data_points g).
Proof. exact (run_rows_inv stream_next window_size z_threshold ticks st). Qed.

(** X2.  In the table of any run, row [i] has no z-score exactly when
    [i < window_size]: the first [window_size] rows are the fill period and
    every later row is scored. *)
Theorem run_fill_period {stream : Type}
    (stream_next : stream -> result float * stream)
    (window_size : Z) (z_threshold : float) (ticks : nat) (st : stream)
    (i : nat) (r : row) :
  let g := run stream_next window_size z_threshold ticks (initial_gui st) in
  nth_error (table g) i = Some r ->
  (row_z_score r = None <-> (Z.of_nat i < window_size)%Z)
  /\ (row_z_score r = None -> row_is_anomaly r = false).
Proof.
  exact (run_fill_inv stream_next window_size z_threshold ticks st i r).
Qed.

(** X3.  In any run the anomaly table and the points of the scatter plot
    hold the same entries, and these are exactly the flagged rows of the main
    table, in order, each with the time, value and z-score of its row. *)
Theorem run_anomalies_are_flagged_rows {stream : Type}
    (stream_next : stream -> result float * stream)
    (window_size : Z) (z_threshold : float) (ticks : nat) (st : stream) :
  let g := run stream_next window_size z_threshold ticks (initial_gui st) in
  anomaly_table g = flat_map anomaly_of_row (table g)
  /\ anomaly_points g = anomaly_table g.
Proof.
  exact (run_anomalies_inv stream_next window_size z_threshold ticks st).
Qed.

(** ** The driver on a finite stream *)

Lemma run_stopped {stream : Type}
    (stream_next : stream -> result float * stream)
    (window_size : Z) (z_threshold : float) (ticks : nat) (s : gui stream) :
  timer_active s = false ->
  run stream_next window_size z_threshold ticks s = s.
Proof. intros Hoff. destruct ticks; simpl; [| rewrite Hoff]; reflexivity. Qed.

Lemma run_list_from (window_size : Z) (z_threshold : float) (ticks : nat) :
  forall (s : gui (list float)),
    timer_active s = true ->
    let g := run list_next window_size z_threshold ticks s in
    data_points g = data_points s ++ firstn ticks (data_stream s)
    /\ data_stream g = skipn ticks (data_stream s)
    /\ timer_active g = (ticks <=? length (data_stream s))%nat.
Proof.
  induction ticks as [| n IH]; intros s Hon.
  - simpl. rewrite app_nil_r. repeat split. exact Hon.
  - cbn [run]. rewrite Hon.
    destruct (data_stream s) as [| x l] eqn:Hl.
    + assert (Hnext : list_next (data_stream s) = (Raise StopIteration, []))
        by (rewrite Hl; reflexivity).
      rewrite (update_raise list_next window_size z_threshold s _ _ Hnext).
      rewrite run_stopped by reflexivity.
      cbn. rewrite app_nil_r. repeat split.
    + assert (Hnext : list_next (data_stream s) = (Return x, l))
        by (rewrite Hl; reflexivity).
      destruct (update_return list_next window_size z_threshold s x l Hnext)
        as (r & -> & _).
      match goal with
      | |- context [run _ _ _ n ?s1] =>
          destruct (IH s1 Hon) as (Hd & Hs & Ht)
      end.
      cbn [data_points data_stream] in Hd, Hs, Ht.
      rewrite Hd, Hs, Ht. cbn. rewrite <- app_assoc. repeat split.
Qed.

(** X5.  Driven by a finite stream the window fetches one value per tick,
    in order: after [ticks] firings the history is the first [ticks] values
    of the stream and the rest is still unread.  The timer is stopped by the
    first firing that finds the stream exhausted, and nothing changes after
    that. *)
Theorem run_consumes_stream_in_order (window_size : Z) (z_threshold : float)
    (ticks : nat) (l : list float) :
  let g := run list_next window_size z_threshold ticks (initial_gui l) in
  data_points g = firstn ticks l
  /\ data_stream g = skipn ticks l
  /\ timer_active g = (ticks <=? length l)%nat
  /\ length (table g) = Nat.min ticks (length l).
Proof.
  intros g.
  destruct (run_list_from window_size z_threshold ticks (initial_gui l)
              eq_refl) as (Hd & Hs & Ht).
  fold g in Hd, Hs, Ht. cbn in Hd, Hs, Ht.
  repeat split; try assumption.
  destruct (run_rows_inv list_next window_size z_threshold ticks l)
    as (_ & _ & _ & Hlen).
  fold g in Hlen. rewrite Hlen, Hd. apply length_firstn.
Qed.

(** ** Clicking an anomaly *)

Lemma select_rows_none (rows : list anomaly) (row time_value : nat) :
  ~ In time_value (map anomaly_time rows) ->
  select_rows rows row time_value = [].
Proof.
  revert row. induction rows as [| a rows IH]; intros row Hnot;
    [reflexivity |].
  cbn [select_rows]. cbn [map] in Hnot.
  destruct (Nat.eqb_spec (anomaly_time a) time_value) as [Heq | _].
  - exfalso. apply Hnot. left. exact Heq.
  - rewrite IH; [reflexivity |]. intros Hin. apply Hnot. right. exact Hin.
Qed.

Lemma select_rows_unique (rows : list anomaly) (row i : nat) (a : anomaly) :
  NoDup (map anomaly_time rows) ->
  nth_error rows i = Some a ->
  select_rows rows row (anomaly_time a) = [(row + i)%nat].
Proof.
  revert row i. induction rows as [| b rows IH]; intros row i Hnd Hi.
  - destruct i; discriminate.
  - cbn [map] in Hnd. inversion Hnd as [| t ts Hnot Hnd']; subst.
    cbn [select_rows]. destruct i as [| j]; cbn [nth_error] in Hi.
    + injection Hi as ->. rewrite Nat.eqb_refl.
      rewrite select_rows_none by exact Hnot.
      rewrite Nat.add_0_r. reflexivity.
    + destruct (Nat.eqb_spec (anomaly_time b) (anomaly_time a)) as [Heq | _].
      * exfalso. apply Hnot. rewrite Heq.
        apply in_map. apply (nth_error_In _ _ Hi).
      * rewrite (IH (S row) j Hnd' Hi). cbn [app]. f_equal. lia.
Qed.

Lemma flagged_times_in_rows (tbl : list row) (t : nat) :
  In t (map anomaly_time (flat_map anomaly_of_row tbl)) ->
  In t (map row_time tbl).
Proof.
  induction tbl as [| r tbl IH]; [intros [] |].
  cbn [flat_map map]. rewrite map_app, in_app_iff.
  intros [Hr | Hrest]; [left | right; apply IH, Hrest].
  unfold anomaly_of_row in Hr.
  destruct (row_z_score r); [| contradiction].
  destruct (row_is_anomaly r); [| contradiction].
  destruct Hr as [Hr | []]. exact Hr.
Qed.

Lemma flagged_times_nodup (tbl : list row) :
  NoDup (map row_time tbl) ->
  NoDup (map anomaly_time (flat_map anomaly_of_row tbl)).
Proof.
  induction tbl as [| r tbl IH]; [intros _; constructor |].
  cbn [flat_map map]. intros Hnd.
  inversion Hnd as [| t ts Hnot Hnd']; subst.
  rewrite map_app. unfold anomaly_of_row at 1.
  destruct (row_z_score r); [| apply IH, Hnd'].
  destruct (row_is_anomaly r); [| apply IH, Hnd'].
  cbn. constructor; [| apply IH, Hnd'].
  intros Hin. apply Hnot. apply flagged_times_in_rows, Hin.
Qed.

(** X6.  In any run the time cells of the anomaly table are pairwise
    distinct, so a click on a point of the scatter plot selects exactly one
    row of the anomaly table: the row that shows this anomaly.  A clicked
    point without data selects nothing. *)
Theorem on_click_selects_own_row {stream : Type}
    (stream_next : stream -> result float * stream)
    (window_size : Z) (z_threshold : float) (ticks : nat) (st : stream)
    (i : nat) (a : anomaly) :
  let g := run stream_next window_size z_threshold ticks (initial_gui st) in
  nth_error (anomaly_table g) i = Some a ->
  NoDup (map anomaly_time (anomaly_table g))
  /\ on_click (anomaly_table g) [Some a] = [i]
  /\ on_click (anomaly_table g) [None; Some a; None] = [i].
Proof.
  intros g Hi.
  destruct (run_rows_inv stream_next window_size z_threshold ticks st)
    as (_ & Htimes & _).
  destruct (run_anomalies_inv stream_next window_size z_threshold ticks st)
    as (Hflagged & _).
  fold g in Htimes, Hflagged.
  assert (Hnd : NoDup (map anomaly_time (anomaly_table g))).
  { rewrite Hflagged. apply flagged_times_nodup.
    rewrite Htimes. apply seq_NoDup. }
  split; [exact Hnd |].
  unfold on_click. cbn [flat_map]. rewrite app_nil_r.
  rewrite (select_rows_unique _ 0 i a Hnd Hi). split; reflexivity.
Qed.

Lemma update_flagged {stream : Type}
    (stream_next : stream -> result float * stream)
    (window_size : Z) (z_threshold : float)
    (s : gui stream) (data_point : float) (st : stream) :
  stream_next (data_stream s) = (Return data_point, st) ->
  (Z.of_nat (length (data_points s ++ [data_point])) > window_size)%Z ->
  let z := z_score (num data_point)
             (moving_average (map Number (data_points s ++ [data_point]))
                             window_size)
             (standard_deviation (map Number (data_points s ++ [data_point]))
                                 window_size) in
  exceeds z z_threshold = Return true ->
  anomaly_table (update stream_next window_size z_threshold s)
  = anomaly_table s ++ [Anomaly (length (data_points s)) data_point z].
Proof.
  intros Hnext Hlen z Hex.
  destruct (update_scored stream_next window_size z_threshold s data_point st
              Hnext Hlen) as (zf & flag & _ & _ & Hex' & _ & Hanom & _).
  fold z in Hex', Hanom. rewrite Hex in Hex'. injection Hex' as <-.
  exact Hanom.
Qed.

Lemma run_fill_period_witness :
  row_z_score (Row 0 1 None false) = None <-> (Z.of_nat 0 < 2)%Z.
Proof.
  apply (run_fill_period list_next 2 1%float 1 [1; 2; 9]%float 0
           (Row 0 1%float None false)).
  reflexivity.
Defined.

Lemma on_click_selects_own_row_witness :
  on_click
    (anomaly_table
       (run list_next 2 0.5 3 (initial_gui [1; 2; 9]%float)))
    [Some (Anomaly 2 9 (num 1))]
  = [0%nat].
Proof.
  apply (on_click_selects_own_row list_next 2 0.5%float 3
           [1; 2; 9]%float 0).
  reflexivity.
Defined.

(** ** Thresholds that pass the validation and flag nothing *)

Lemma exceeds_nan (z : pyobj) (flag : bool) :
  exceeds z nan = Return flag -> flag = false.
Proof.
  destruct z as [n | s |]; try discriminate.
  rewrite exceeds_number. intros H. injection H as <-.
  unfold gt. destruct (value (absolute n)); reflexivity.
Qed.

Lemma exceeds_infinity (z : pyobj) (flag : bool) :
  exceeds z infinity = Return flag -> flag = false.
Proof.
  destruct z as [n | s |]; try discriminate.
  rewrite exceeds_number. intros H. injection H as <-.
  unfold gt. rewrite value_absolute.
  destruct (value n); reflexivity.
Qed.

Lemma run_never_flags {stream : Type}
    (stream_next : stream -> result float * stream)
    (window_size : Z) (z_threshold : float) (ticks : nat) (st : stream) :
  (forall z flag, exceeds z z_threshold = Return flag -> flag = false) ->
  let g := run stream_next window_size z_threshold ticks (initial_gui st) in
  anomaly_table g = [] /\ anomaly_points g = []
  /\ forall r, In r (table g) -> row_is_anomaly r = false.
Proof.
  intros Hnever.
  set (P := fun g : gui stream =>
              anomaly_table g = [] /\ anomaly_points g = []
              /\ forall r, In r (table g) -> row_is_anomaly r = false).
  apply (run_invariant stream_next window_size z_threshold P).
  - intros s (Ha & Hp & Hrows).
    destruct (stream_next (data_stream s)) as [[v | e] st'] eqn:Hnext.
    + destruct (update_return stream_next window_size z_threshold s v st'
                  Hnext) as (r & -> & _ & _ & _ & Hnone & Hsome).
      assert (Hr : row_is_anomaly r = false).
      { destruct (row_z_score r) as [z |] eqn:Hz.
        - destruct (Hsome z eq_refl) as [_ Hex].
          apply (Hnever z _ Hex).
        - apply Hnone. reflexivity. }
      assert (Hnil : anomaly_of_row r = []).
      { unfold anomaly_of_row. rewrite Hr.
        destruct (row_z_score r); reflexivity. }
      unfold P. cbn [anomaly_table anomaly_points table].
      rewrite Ha, Hp, Hnil. repeat split.
      intros r' Hin. apply in_app_or in Hin.
      destruct Hin as [Hin | [<- | []]]; [apply Hrows, Hin | exact Hr].
    + rewrite (update_raise stream_next window_size z_threshold s e st'
                 Hnext).
      unfold P. cbn [anomaly_table anomaly_points table].
      repeat split; assumption.
  - unfold P. repeat split. intros r [].
Qed.

(** X4.  A threshold of NaN or of infinity passes the validation of
    [detect_anomalies_with_visualization] (neither is [<= 0]), and with it
    no point is ever flagged: both anomaly views stay empty on every
    stream. *)
Theorem nan_threshold_never_flags {stream : Type}
    (stream_next : stream -> result float * stream)
    (window_size : Z) (ticks : nat) (st : stream) (z_threshold : float) :
  (1 <= window_size)%Z ->
  z_threshold = nan \/ z_threshold = infinity ->
  exists g,
    detect_anomalies_with_visualization stream_next st window_size
      z_threshold ticks = Return g
    /\ anomaly_table g = [] /\ anomaly_points g = []
    /\ forall r, In r (table g) -> row_is_anomaly r = false.
Proof.
  intros Hw Hthr. unfold detect_anomalies_with_visualization.
  destruct (Z.leb_spec window_size 0) as [Hle | _]; [lia |].
  assert (Hvalid : le (Float z_threshold) (Int 0) = false)
    by (destruct Hthr as [-> | ->]; reflexivity).
  rewrite Hvalid. cbn [orb]. eexists. split; [reflexivity |].
  apply (run_never_flags stream_next window_size z_threshold ticks st).
  destruct Hthr as [-> | ->]; [exact exceeds_nan | exact exceeds_infinity].
Qed.

Lemma nan_threshold_never_flags_witness :
  exists g,
    detect_anomalies_with_visualization list_next [1; 2; 900]%float 2 nan 5
    = Return g
    /\ anomaly_table g = [].
Proof.
  destruct (nan_threshold_never_flags list_next 2 5 [1; 2; 900]%float nan)
    as (g & Hg & Ha & _).
  - lia.
  - left. reflexivity.
  - exists g. split; assumption.
Defined.

(** * Further properties of the scorer *)

(** X7.  The guard [std_dev > 0] of [z_score] does not make a constant
    window score 0: on the stream [0.1, 0.1, 0.1, 0.1] with a window of 3
    the rounded mean of the window is [0.10000000000000002], the standard
    deviation [1.3877787807814457e-17], and the fourth point gets the
    z-score [-1.0]; with a threshold of 0.5 it is flagged. *)
Theorem constant_stream_is_flagged :
  let g := run list_next 3 0.5 5
               (initial_gui [0.1; 0.1; 0.1; 0.1]%float) in
  moving_average (map Number [0.1; 0.1; 0.1; 0.1]%float) 3
  = num 0.10000000000000002
  /\ standard_deviation (map Number [0.1; 0.1; 0.1; 0.1]%float) 3
     = num 1.3877787807814457e-17
  /\ nth_error (table g) 3
     = Some (Row 3 0.1 (Some (num (-1))) true)
  /\ anomaly_table g = [Anomaly 3 0.1 (num (-1))]
  /\ timer_active g = false.
Proof. cbv zeta. repeat split; vm_compute; reflexivity. Qed.

(** X8.  A negative [window_size] makes neither statistic fail:
    [data[-window_size:]] then drops the first [-window_size] elements, the
    statistics range over what is left, and when nothing is left the result
    is NaN. *)
Theorem negative_window_drops_prefix (xs : list float) (k : nat) :
  (0 < k)%nat ->
  moving_average (map Number xs) (- Z.of_nat k) = num (Np.fmean (skipn k xs))
  /\ standard_deviation (map Number xs) (- Z.of_nat k)
     = num (Np.fstd (skipn k xs))
  /\ ((length xs <= k)%nat ->
      moving_average (map Number xs) (- Z.of_nat k) = num nan
      /\ standard_deviation (map Number xs) (- Z.of_nat k) = num nan).
Proof.
  intros Hk.
  assert (Hslice : slice_from (- - Z.of_nat k) xs = skipn k xs).
  { unfold slice_from.
    destruct (Z.ltb_spec (- - Z.of_nat k) 0) as [Hlt | _]; [lia |].
    destruct (Nat.le_gt_cases (length xs) k) as [Hle | Hgt].
    - replace (Z.to_nat (Z.min (- - Z.of_nat k) (Z.of_nat (length xs))))
        with (length xs) by lia.
      rewrite skipn_all. symmetry. apply skipn_all2. exact Hle.
    - f_equal. lia. }
  rewrite moving_average_numbers, standard_deviation_numbers, Hslice.
  split; [reflexivity |]. split; [reflexivity |].
  intros Hle. rewrite skipn_all2 by exact Hle. split; reflexivity.
Qed.

Lemma negative_window_drops_prefix_witness :
  moving_average (map Number [1; 2; 3; 4; 5]%float) (- Z.of_nat 2)
  = num 4.
Proof.
  assert (Hk : (0 < 2)%nat) by lia.
  etransitivity.
  - exact (proj1 (negative_window_drops_prefix [1; 2; 3; 4; 5]%float 2 Hk)).
  - reflexivity.
Defined.

(** * Further properties of the stream generator *)

Section StreamProperties.

Variable os : oracle.

Lemma loop_yield (duration interval : number) (start_time : float)
    (w : world) :
  lt (Float (clock os (reads w) - start_time)) duration = true ->
  loop os duration interval start_time w
  = (Return (data_point_at os start_time (clock os (S (reads w)))
                           (uniform os (draws w))),
     Suspended duration interval start_time,
     World (S (S (reads w))) (S (draws w))).
Proof.
  intros Hlt. unfold loop, time_time, random_uniform. cbn.
  rewrite Hlt. reflexivity.
Qed.

Lemma loop_stop (duration interval : number) (start_time : float)
    (w : world) :
  lt (Float (clock os (reads w) - start_time)) duration = false ->
  loop os duration interval start_time w
  = (Raise StopIteration, Finished, World (S (reads w)) (draws w)).
Proof.
  intros Hge. unfold loop, time_time. cbn.
  rewrite Hge. reflexivity.
Qed.

Lemma next_created_valid (duration interval : number) (w : world) :
  le duration (Int 0) = false -> le interval (Int 0) = false ->
  next os (Created duration interval) w
  = loop os duration interval (clock os (reads w))
         (World (S (reads w)) (draws w)).
Proof.
  intros Hd Hi. cbn [next]. rewrite Hd, Hi. reflexivity.
Qed.

Lemma py_list_step (fuel : nat) (g : generator) (w : world) :
  py_list os (S fuel) g w
  = match next os g w with
    | (Return v, g', w') =>
        match py_list os fuel g' w' with
        | Some (Return vs) => Some (Return (v :: vs))
        | other => other
        end
    | (Raise StopIteration, _, _) => Some (Return [])
    | (Raise e, _, _) => Some (Raise e)
    end.
Proof. reflexivity. Qed.

Lemma py_list_more_fuel (fuel extra : nat) :
  forall (g : generator) (w : world) (r : result (list float)),
    py_list os fuel g w = Some r ->
    py_list os (fuel + extra) g w = Some r.
Proof.
  induction fuel as [| f IH]; intros g w r; [discriminate |].
  change (S f + extra)%nat with (S (f + extra)).
  rewrite !py_list_step.
  destruct (next os g w) as [[[v | e] g'] w']; [| tauto].
  destruct (py_list os f g' w') as [r' |] eqn:Hrec;
    [| discriminate].
  rewrite (IH g' w' r' Hrec). tauto.
Qed.

End StreamProperties.

Lemma first_failure (p : nat -> bool) (n : nat) :
  p n = false ->
  exists m, (m <= n)%nat /\ p m = false
            /\ forall j, (j < m)%nat -> p j = true.
Proof.
  revert p. induction n as [| n IH]; intros p Hn.
  - exists O. split; [lia | split; [exact Hn | intros j Hj; lia]].
  - destruct (p O) eqn:H0.
    + destruct (IH (fun j => p (S j)) Hn) as (m & Hm & Hfail & Hbefore).
      exists (S m). split; [lia | split; [exact Hfail |]].
      intros [| j] Hj; [exact H0 | apply Hbefore; lia].
    + exists O. split; [lia | split; [exact H0 | intros j Hj; lia]].
Qed.

Section StreamLength.

Variable os : oracle.
Variables (duration interval : number) (r0 : nat).

Hypothesis Hduration : le duration (Int 0) = false.
Hypothesis Hinterval : le interval (Int 0) = false.
Hypothesis Hsleep : time_sleep os interval = Return tt.

(** The [j]-th evaluation of the loop test finds the duration not yet
    elapsed. *)
Let passes (j : nat) : bool :=
  lt (Float (clock os (r0 + 1 + 2 * j) - clock os r0)) duration.

Let yielded (dr j : nat) : float :=
  data_point_at os (clock os r0) (clock os (r0 + 2 + 2 * j))
                (uniform os (dr + j)).

Lemma py_list_suspended (m : nat) :
  forall (j dr : nat),
    (forall j', (j <= j' < j + m)%nat -> passes j' = true) ->
    passes (j + m) = false ->
    py_list os (S m) (Suspended duration interval (clock os r0))
            (World (r0 + 1 + 2 * j) (dr + j))
    = Some (Return (map (yielded dr) (seq j m))).
Proof.
  induction m as [| m IH]; intros j dr Hpass Hfail.
  - rewrite py_list_step. cbn [next]. rewrite Hsleep.
    rewrite loop_stop
      by (cbn [reads]; rewrite Nat.add_0_r in Hfail; exact Hfail).
    reflexivity.
  - rewrite py_list_step. cbn [next]. rewrite Hsleep.
    rewrite loop_yield by (cbn [reads]; apply Hpass; lia).
    cbn [reads draws].
    replace (S (S (r0 + 1 + 2 * j))) with (r0 + 1 + 2 * S j)%nat by lia.
    replace (S (dr + j)) with (dr + S j)%nat by lia.
    rewrite IH.
    + cbn [seq map]. unfold yielded at 2.
      replace (S (r0 + 1 + 2 * j)) with (r0 + 2 + 2 * j)%nat by lia.
      reflexivity.
    + intros j' Hj'. apply Hpass. lia.
    + replace (S j + m)%nat with (j + S m)%nat by lia. exact Hfail.
Qed.

Lemma py_list_created (m dr : nat) :
  passes 0 = true ->
  py_list os (S (S m)) (Created duration interval) (World r0 dr)
  = match py_list os (S m) (Suspended duration interval (clock os r0))
                  (World (r0 + 1 + 2 * 1) (dr + 1)) with
    | Some (Return vs) => Some (Return (yielded dr 0 :: vs))
    | other => other
    end.
Proof.
  intros H0. rewrite (py_list_step os (S m)).
  rewrite next_created_valid by assumption.
  rewrite loop_yield
    by (cbn [reads]; unfold passes in H0;
        replace (r0 + 1 + 2 * 0)%nat with (S r0) in H0 by lia; exact H0).
  cbn [reads draws].
  replace (S (S (S r0))) with (r0 + 1 + 2 * 1)%nat by lia.
  replace (S dr) with (dr + 1)%nat by lia.
  unfold yielded.
  replace (r0 + 2 + 2 * 0)%nat with (S (S r0)) by lia.
  replace (dr + 0)%nat with dr by lia.
  reflexivity.
Qed.

Lemma py_list_until_first_failure (m dr : nat) :
  (forall j, (j < m)%nat -> passes j = true) ->
  passes m = false ->
  py_list os (S m) (Created duration interval) (World r0 dr)
  = Some (Return (map (yielded dr) (seq 0 m))).
Proof.
  intros Hpass Hfail. destruct m as [| m].
  - rewrite py_list_step, next_created_valid by assumption.
    rewrite loop_stop; [reflexivity |].
    cbn [reads]. unfold passes in Hfail.
    replace (r0 + 1 + 2 * 0)%nat with (S r0) in Hfail by lia. exact Hfail.
  - rewrite py_list_created by (apply Hpass; lia).
    rewrite (py_list_suspended m 1 dr).
    + reflexivity.
    + intros j' Hj'. apply Hpass. lia.
    + exact Hfail.
Qed.

End StreamLength.

Lemma stream_length_bound (os : oracle) (duration interval : number)
    (r0 dr n : nat) :
  le duration (Int 0) = false -> le interval (Int 0) = false ->
  time_sleep os interval = Return tt ->
  lt (Float (clock os (r0 + 1 + 2 * n) - clock os r0)) duration = false ->
  exists vs,
    (length vs <= n)%nat
    /\ forall fuel, (n < fuel)%nat ->
        py_list os fuel (Created duration interval) (World r0 dr)
        = Some (Return vs).
Proof.
  intros Hd Hi Hsleep Hn.
  destruct (first_failure
              (fun j => lt (Float (clock os (r0 + 1 + 2 * j) - clock os r0))
                           duration) n Hn)
    as (m & Hm & Hfail & Hpass).
  pose proof (py_list_until_first_failure os duration interval r0 Hd Hi
                Hsleep m dr Hpass Hfail) as Hvs.
  eexists. split; [| intros fuel Hfuel;
    replace fuel with (S m + (fuel - S m))%nat by lia;
    apply py_list_more_fuel, Hvs].
  rewrite length_map, length_seq. exact Hm.
Qed.

(** X9.  The stream is finite whenever time passes: with a valid
    configuration and a sleep that returns, if the [n]-th evaluation of the
    loop test finds the duration elapsed then
    [list(simulate_data_stream(duration, interval))] returns, with at most
    [n] values. *)
Theorem stream_is_finite (os : oracle) (duration interval : number)
    (r0 dr n : nat) :
  le duration (Int 0) = false -> le interval (Int 0) = false ->
  time_sleep os interval = Return tt ->
  lt (Float (clock os (r0 + 1 + 2 * n) - clock os r0)) duration = false ->
  exists vs,
    (length vs <= n)%nat
    /\ forall fuel, (n < fuel)%nat ->
        py_list os fuel (Created duration interval) (World r0 dr)
        = Some (Return vs).
Proof. exact (stream_length_bound os duration interval r0 dr n). Qed.

(** X10.  What [list(simulate_data_stream(duration, interval))] holds: if the
    loop test succeeds [n] times and then fails, the list has exactly [n]
    values, and the [j]-th is [10 sin(0.2 t) + 5 sin(0.05 t) + noise] for the
    time [t] read from the clock in the [j]-th pass and the [j]-th draw of
    the noise.  On a clock that advances one second per pass, [duration = 5]
    and [interval = 1] give the 5 values the test suite expects. *)
Theorem stream_values_until_elapsed (os : oracle)
    (duration interval : number) (r0 dr n : nat) :
  le duration (Int 0) = false -> le interval (Int 0) = false ->
  time_sleep os interval = Return tt ->
  (forall j, (j < n)%nat ->
     lt (Float (clock os (r0 + 1 + 2 * j) - clock os r0)) duration = true) ->
  lt (Float (clock os (r0 + 1 + 2 * n) - clock os r0)) duration = false ->
  forall fuel, (n < fuel)%nat ->
    py_list os fuel (Created duration interval) (World r0 dr)
    = Some (Return
              (map (fun j => data_point_at os (clock os r0)
                               (clock os (r0 + 2 + 2 * j))
                               (uniform os (dr + j)))
                   (seq 0 n))).
Proof.
  intros Hd Hi Hsleep Hpass Hfail fuel Hfuel.
  replace fuel with (S n + (fuel - S n))%nat by lia.
  apply py_list_more_fuel.
  apply (py_list_until_first_failure os duration interval r0 Hd Hi Hsleep
           n dr Hpass Hfail).
Qed.

Lemma stream_is_finite_witness :
  exists vs,
    (length vs <= 5)%nat
    /\ forall fuel, (5 < fuel)%nat ->
        py_list one_second_platform fuel (Created (Int 5) (Int 1))
                (World 0 0)
        = Some (Return vs).
Proof.
  apply (stream_is_finite one_second_platform (Int 5) (Int 1) 0 0 5);
    reflexivity.
Defined.

Lemma stream_values_until_elapsed_witness :
  py_list one_second_platform 6 (Created (Int 5) (Int 1)) (World 0 0)
  = Some (Return [0; 0; 0; 0; 0]%float).
Proof.
  etransitivity.
  - apply (stream_values_until_elapsed one_second_platform (Int 5) (Int 1)
             0 0 5); try reflexivity.
    + intros [| [| [| [| [| j]]]]] Hj; try reflexivity. lia.
    + lia.
  - reflexivity.
Defined.

(** * The detector driven by the generator *)

Lemma run_add {stream : Type}
    (stream_next : stream -> result float * stream)
    (window_size : Z) (z_threshold : float) (a b : nat) :
  forall s,
    run stream_next window_size z_threshold (a + b) s
    = run stream_next window_size z_threshold b
          (run stream_next window_size z_threshold a s).
Proof.
  induction a as [| a IH]; intros s; [reflexivity |].
  cbn [Nat.add run].
  destruct (timer_active s) eqn:Hon; [apply IH |].
  symmetry. apply run_stopped, Hon.
Qed.

Section GeneratorDriven.

Variable os : oracle.
Variables (window_size : Z) (z_threshold : float).

Lemma run_generator_from (fuel : nat) :
  forall (s : gui (generator * world)) (vs : list float),
    timer_active s = true ->
    py_list os fuel (fst (data_stream s)) (snd (data_stream s))
    = Some (Return vs) ->
    let s' := run (generator_next os) window_size z_threshold fuel s in
    data_points s' = data_points s ++ vs /\ timer_active s' = false.
Proof.
  induction fuel as [| f IH]; intros s vs Hon Hlist; [discriminate |].
  rewrite py_list_step in Hlist. cbn [run]. rewrite Hon.
  destruct (next os (fst (data_stream s)) (snd (data_stream s)))
    as [[[v | e] g'] w'] eqn:Hnext.
  - assert (Hgen : generator_next os (data_stream s)
                   = (Return v, (g', w')))
      by (unfold generator_next; rewrite Hnext; reflexivity).
    destruct (py_list os f g' w') as [[vs' | e'] |] eqn:Hrec;
      try discriminate.
    injection Hlist as <-.
    destruct (update_return (generator_next os) window_size
                z_threshold s v (g', w') Hgen) as (r & -> & _).
    match goal with
    | |- context [run _ _ _ f ?s1] =>
        destruct (IH s1 vs' Hon Hrec) as (Hd & Ht)
    end.
    cbn [data_points] in Hd. cbv zeta. rewrite Hd, Ht, <- app_assoc.
    split; reflexivity.
  - assert (Hgen : generator_next os (data_stream s)
                   = (Raise e, (g', w')))
      by (unfold generator_next; rewrite Hnext; reflexivity).
    rewrite (update_raise (generator_next os) window_size
               z_threshold s e (g', w') Hgen).
    destruct e; try discriminate.
    injection Hlist as <-.
    rewrite run_stopped by reflexivity.
    cbn. rewrite app_nil_r. split; reflexivity.
Qed.

End GeneratorDriven.

(** X11.  The program as [__main__] runs it: a window fed by the generator,
    both with a valid configuration.  If the [n]-th evaluation of the
    generator's loop test finds the duration elapsed, then after more than
    [n] firings of the timer the window has stopped its timer and does not
    change any more; its history is [list(generator)], at most [n] values,
    each with its row in the table. *)
Theorem detector_on_generator_stops (os : oracle)
    (duration interval : number) (r0 dr n : nat)
    (window_size : Z) (z_threshold : float) :
  le duration (Int 0) = false -> le interval (Int 0) = false ->
  time_sleep os interval = Return tt ->
  lt (Float (clock os (r0 + 1 + 2 * n) - clock os r0)) duration = false ->
  (1 <= window_size)%Z -> le (Float z_threshold) (Int 0) = false ->
  exists g,
    (forall ticks, (n < ticks)%nat ->
       detect_anomalies_with_visualization (generator_next os)
         (Created duration interval, World r0 dr) window_size z_threshold
         ticks
       = Return g)
    /\ timer_active g = false
    /\ (length (data_points g) <= n)%nat
    /\ length (table g) = length (data_points g)
    /\ py_list os (S n) (Created duration interval) (World r0 dr)
       = Some (Return (data_points g)).
Proof.
  intros Hd Hi Hsleep Hn Hw Hthr.
  destruct (stream_length_bound os duration interval r0 dr n
              Hd Hi Hsleep Hn) as (vs & Hlen & Hlist).
  set (init := initial_gui (stream := generator * world)
                 (Created duration interval, World r0 dr)).
  set (g := run (generator_next os) window_size z_threshold (S n) init).
  destruct (run_generator_from os window_size z_threshold (S n)
              init vs eq_refl (Hlist (S n) (Nat.lt_succ_diag_r n)))
    as (Hdata & Hoff).
  fold g in Hdata, Hoff. cbn [data_points init initial_gui app] in Hdata.
  exists g. split; [| split; [exact Hoff | split; [| split]]].
  - intros ticks Hticks. unfold detect_anomalies_with_visualization.
    destruct (Z.leb_spec window_size 0) as [Hle | _]; [lia |].
    rewrite Hthr. cbn [orb].
    f_equal. fold init.
    replace ticks with (S n + (ticks - S n))%nat by lia.
    rewrite run_add. fold g. apply run_stopped, Hoff.
  - rewrite Hdata. exact Hlen.
  - apply (run_rows_inv (generator_next os) window_size
             z_threshold (S n)).
  - rewrite Hdata. apply Hlist. lia.
Qed.

Lemma detector_on_generator_stops_witness :
  exists g,
    detect_anomalies_with_visualization (generator_next one_second_platform)
      (Created (Int 5) (Int 1), World 0 0) 10 2 6
    = Return g
    /\ timer_active g = false.
Proof.
  destruct (detector_on_generator_stops one_second_platform (Int 5) (Int 1)
              0 0 5 10 2%float eq_refl eq_refl eq_refl eq_refl)
    as (g & Hg & Hoff & _).
  - lia.
  - reflexivity.
  - exists g. split; [apply Hg; lia | exact Hoff].
Defined.

(** ** An invalid configuration of the generator *)

(** X12.  With [duration <= 0] or [interval <= 0] the generator yields
    nothing at all: [list(simulate_data_stream(duration, interval))] raises
    [ValueError], and a window fed by such a generator (its own configuration
    valid) swallows the error at the first firing of the timer, stops at the
    second and shows empty tables. *)
Theorem invalid_stream_yields_nothing (os : oracle)
    (duration interval : number) (w : world)
    (window_size : Z) (z_threshold : float) (fuel : nat) :
  le duration (Int 0) = true \/ le interval (Int 0) = true ->
  (1 <= window_size)%Z -> le (Float z_threshold) (Int 0) = false ->
  py_list os (S fuel) (Created duration interval) w
  = Some (Raise ValueError)
  /\ detect_anomalies_with_visualization (generator_next os)
       (Created duration interval, w) window_size z_threshold (S (S fuel))
     = Return (Gui (generator * world) (Finished, w) [] [] [] [] [] false).
Proof.
  intros Hbad Hw Hthr. split.
  - rewrite py_list_step, next_invalid_config by assumption. reflexivity.
  - unfold detect_anomalies_with_visualization.
    destruct (Z.leb_spec window_size 0) as [Hle | _]; [lia |].
    rewrite Hthr. cbn [orb]. f_equal.
    set (init := Gui (generator * world) (Created duration interval, w)
                     [] [] [] [] [] true).
    assert (H1 : generator_next os (data_stream init)
                 = (Raise ValueError, (Finished, w))).
    { unfold generator_next. cbn [data_stream init fst snd].
      rewrite next_invalid_config by assumption. reflexivity. }
    cbn [run]. change (timer_active init) with true. cbv iota.
    rewrite (update_raise (generator_next os) window_size z_threshold
               init ValueError (Finished, w) H1).
    cbn [timer_active init data_points time_points anomaly_points table
         anomaly_table].
    match goal with
    | |- context [update _ _ _ ?s1] =>
        rewrite (update_raise (generator_next os) window_size z_threshold
                   s1 StopIteration (Finished, w) eq_refl)
    end.
    apply run_stopped. reflexivity.
Qed.

Lemma invalid_stream_yields_nothing_witness :
  py_list one_second_platform 1 (Created (Int 5) (Int (-1))) (World 0 0)
  = Some (Raise ValueError).
Proof.
  apply (invalid_stream_yields_nothing one_second_platform (Int 5)
           (Int (-1)) (World 0 0) 10 2%float 0).
  - right. reflexivity.
  - lia.
  - reflexivity.
Defined.

(** * The depth of numpy's pairwise summation *)

Lemma halves_shorter (n : nat) :
  (128 < n)%nat ->
  (1 <= n / 2 - (n / 2) mod 8 < n)%nat.
Proof.
  intros Hn.
  assert (H64 : (64 <= n / 2)%nat)
    by (change 64%nat with (128 / 2)%nat; apply Nat.Div0.div_le_mono; lia).
  assert (Hlt : (n / 2 < n)%nat) by (apply Nat.div_lt; lia).
  assert (Hmod : ((n / 2) mod 8 < 8)%nat)
    by (apply Nat.mod_upper_bound; discriminate).
  lia.
Qed.

(** The fuel of [pairwise_sum_rec] never runs out: any fuel from the length
    of the list on gives the same sum. *)
Lemma pairwise_sum_fuel (f1 : nat) :
  forall (f2 : nat) (xs : list float),
    (length xs <= f1)%nat -> (length xs <= f2)%nat ->
    Np.pairwise_sum_rec f1 xs = Np.pairwise_sum_rec f2 xs.
Proof.
  induction f1 as [| f1 IH]; intros f2 xs H1 H2.
  - destruct xs; [| simpl in H1; lia]. destruct f2; reflexivity.
  - destruct f2 as [| f2].
    + destruct xs; [| simpl in H2; lia]. reflexivity.
    + cbn [Np.pairwise_sum_rec].
      destruct (Nat.ltb_spec (length xs) 8) as [_ | H8]; [reflexivity |].
      destruct (Nat.leb_spec (length xs) 128) as [_ | H128];
        [reflexivity |].
      pose proof (halves_shorter (length xs) H128) as Hn2.
      f_equal; apply IH;
        rewrite ?length_firstn, ?length_skipn; lia.
Qed.
